(** * Virtual machine management example ([vm/example.py])

    A shallow embedding of the provisioning script: the module-level
    resource names, the data the script handles, the calls it issues to
    the resource-management service, and [run_example] and [create_nic]
    as programs of a small state-and-exception monad that records every
    call in a trace.  The service itself is external: it is a parameter
    that decides, call by call, what is returned and what is raised. *)

From Stdlib Require Import ZArith String DecimalString DecimalZ DecimalPos Lia.
From stdpp Require Import base list strings gmap.

Set Default Proof Using "Type".

(** ** Python values *)

(** ['{}'.format(n)] for an [int]: the decimal numeral, with a leading
    minus sign for negative numbers. *)
Definition format_int (z : Z) : string :=
  NilZero.string_of_int (Z.to_int z).

(** [sub in s] for strings. *)
Fixpoint contains (sub s : string) : bool :=
  String.prefix sub s ||
  match s with
  | EmptyString => false
  | String _ s' => contains sub s'
  end.

(** Truth value of an optional integer attribute: [None] and [0] are
    falsy, every other integer is truthy. *)
Definition truthy (v : option Z) : bool :=
  match v with
  | None => false
  | Some z => negb (z =? 0)%Z
  end.

(** ** Module-level names (lines 29-45) *)

Section Names.
(** [postfix = random.randint(100, 500)], drawn once when the module is
    loaded. *)
Variable postfix : Z.

Definition GROUP_NAME : string :=
  "azure-sample-group-virtual-machines" +:+ format_int postfix.
Definition VNET_NAME : string := "azure-sample-vnet" +:+ format_int postfix.
Definition SUBNET_NAME : string :=
  "azure-sample-subnet" +:+ format_int postfix.
Definition OS_DISK_NAME : string :=
  "azure-sample-osdisk" +:+ format_int postfix.
Definition IP_CONFIG_NAME : string :=
  "azure-sample-ip-config" +:+ format_int postfix.
Definition NIC_NAME : string := "azure-sample-nic" +:+ format_int postfix.
Definition VM_NAME : string := "VmName" +:+ format_int postfix.

(** The names that are built from [postfix]. *)
Definition postfix_names : list string :=
  [GROUP_NAME; VNET_NAME; SUBNET_NAME; OS_DISK_NAME; IP_CONFIG_NAME;
   NIC_NAME; VM_NAME].
End Names.

Definition USERNAME : string := "userlogin".

(** The name of the managed data disk is a literal of [run_example]. *)
Definition DATA_DISK_NAME : string := "mydatadisk1".

(** ** Data model *)

Module DiskCreateOption.
Inductive t := empty | attach | from_image.
End DiskCreateOption.

Module ImageReference.
Record t := mk { publisher : string; offer : string; sku : string;
                 version : string }.
End ImageReference.

(** [VM_REFERENCE] is a dict with the two keys ['linux'] and ['windows'];
    it is only ever indexed by these two literals. *)
Inductive os_key := linux | windows.

Definition VM_REFERENCE (k : os_key) : ImageReference.t :=
  match k with
  | linux => ImageReference.mk "Canonical" "UbuntuServer" "16.04-LTS" "latest"
  | windows =>
      ImageReference.mk "MicrosoftWindowsServer" "WindowsServer"
                        "2016-Datacenter" "latest"
  end.

Module DataDisk.
(** An entry of [storage_profile.data_disks], read through its
    attributes.  The attach step writes its descriptor as a dict with
    these four keys; it is modelled as an entry like the others, which is
    how line 205 reads it ([disk.name]) after the machine has been
    submitted on line 195. *)
Record t := mk { lun : Z; name : string;
                 create_option : DiskCreateOption.t;
                 managed_disk_id : string }.
End DataDisk.

Module OSDisk.
Record t := mk { name : string }.
End OSDisk.

Module StorageProfile.
Record t := mk { os_disk : OSDisk.t; data_disks : list DataDisk.t }.
End StorageProfile.

Module VirtualMachine.
Record t := mk { name : string; storage_profile : StorageProfile.t }.
End VirtualMachine.

Module Disk.
(** [disk_size_gb] is [None] when the service does not report it. *)
Record t := mk { id : string; name : string; disk_size_gb : option Z }.
End Disk.

Module Subnet.
Record t := mk { id : string }.
End Subnet.

Module NetworkInterface.
Record t := mk { id : string }.
End NetworkInterface.

Module Cloud.
(** [mystack_cloud.endpoints]. *)
Record t := mk { active_directory : string;
                 active_directory_resource_id : string;
                 resource_manager : string }.
End Cloud.

Module Config.
(** The JSON configuration handed to [run_example]. *)
Record t := mk { resourceManagerUrl : string; subscriptionId : string;
                 location : string; clientId : string;
                 clientSecret : string; tenantId : string }.
End Config.

Module VMParameters.
(** The dict built by [create_vm_parameters]. *)
Record t := mk { location : string;
                 computer_name : string;
                 admin_username : string;
                 admin_password : string;
                 vm_size : string;
                 image_reference : ImageReference.t;
                 network_interfaces : list string }.
End VMParameters.

(** ** The pure steps of [run_example] *)

(** The list comprehension [[x for x in l if keep x]]: the result starts
    empty and every kept element is appended to it, in iteration order. *)
Definition comprehension {A} (keep : A → bool) (l : list A) : list A :=
  foldl (λ acc x, if keep x then acc ++ [x] else acc) [] l.

(** The descriptor appended by the attach step (lines 187-194). *)
Definition attach_descriptor (data_disk_id : string) : DataDisk.t :=
  DataDisk.mk 12 DATA_DISK_NAME DiskCreateOption.attach data_disk_id.

Definition set_data_disks (vm : VirtualMachine.t) (l : list DataDisk.t)
  : VirtualMachine.t :=
  let sp := VirtualMachine.storage_profile vm in
  VirtualMachine.mk (VirtualMachine.name vm)
    (StorageProfile.mk (StorageProfile.os_disk sp) l).

Definition data_disks_of (vm : VirtualMachine.t) : list DataDisk.t :=
  StorageProfile.data_disks (VirtualMachine.storage_profile vm).

(** [virtual_machine.storage_profile.data_disks.append({...})]. *)
Definition attach_step (vm : VirtualMachine.t) (data_disk_id : string)
  : VirtualMachine.t :=
  set_data_disks vm (data_disks_of vm ++ [attach_descriptor data_disk_id]).

(** The filter of the detach step (line 205), on a bare list. *)
Definition detach_list (data_disks : list DataDisk.t) : list DataDisk.t :=
  comprehension
    (λ disk, negb (String.eqb (DataDisk.name disk) DATA_DISK_NAME))
    data_disks.

(** [data_disks[:] = [...]]: the slice assignment replaces the contents
    of the very list object the machine holds. *)
Definition detach_step (vm : VirtualMachine.t) : VirtualMachine.t :=
  set_data_disks vm (detach_list (data_disks_of vm)).

(** [create_vm_parameters] (lines 337-363). *)
Definition create_vm_parameters (postfix : Z) (PASSWORD : string)
    (nic_id : string) (vm_reference : ImageReference.t) (LOCATION : string)
  : VMParameters.t :=
  VMParameters.mk LOCATION (VM_NAME postfix) USERNAME PASSWORD
    "Standard_DS1_v2"
    (ImageReference.mk (ImageReference.publisher vm_reference)
       (ImageReference.offer vm_reference)
       (ImageReference.sku vm_reference)
       (ImageReference.version vm_reference))
    [nic_id].

(** ** Calls to the resource-management service *)

(** Request bodies of [virtual_machines.begin_create_or_update]: the dict
    of [create_vm_parameters], the tag update, or a machine object that
    is submitted again as a whole. *)
Inductive vm_body :=
| VMCreate (parameters : VMParameters.t)
| VMTags (location : string) (tags : list (string * string))
| VMObject (vm : VirtualMachine.t).

(** Request bodies of [disks.begin_create_or_update]. *)
Inductive disk_body :=
| DiskCreate (location : string) (disk_size_gb : Z)
             (create_option : DiskCreateOption.t)
| DiskObject (disk : Disk.t).

(** The long-running operations: every [begin_*] method of the clients
    that the script calls, with the arguments it passes. *)
Inductive lro :=
| storage_accounts_create (group name sku kind location : string)
| virtual_networks_create_or_update
    (group vnet location : string) (address_prefixes : list string)
| subnets_create_or_update (group vnet subnet address_prefix : string)
| network_interfaces_create_or_update
    (group nic location ip_config_name subnet_id : string)
| virtual_machines_create_or_update (group name : string) (body : vm_body)
| disks_create_or_update (group name : string) (body : disk_body)
| virtual_machines_deallocate (group name : string)
| virtual_machines_start (group name : string)
| virtual_machines_restart (group name : string)
| virtual_machines_power_off (group name : string)
| virtual_machines_delete (group name : string)
| resource_groups_delete (group : string).

(** What [.result()] of the operation's poller returns. *)
Definition lro_result (op : lro) : Type :=
  match op with
  | subnets_create_or_update _ _ _ _ => Subnet.t
  | network_interfaces_create_or_update _ _ _ _ _ => NetworkInterface.t
  | virtual_machines_create_or_update _ _ _ => VirtualMachine.t
  | disks_create_or_update _ _ _ => Disk.t
  | _ => unit
  end.

(** Every interaction with the outside: the metadata request, the
    synchronous group creation, submitting an operation ([begin]),
    waiting for it ([result]), and the reads. *)
Inductive call :=
| get_cloud_from_metadata_endpoint (url : string)
| resource_groups_create_or_update (group location : string)
| begin (op : lro)
| result (op : lro)
| virtual_machines_get (group name : string)
| disks_get (group name : string)
| virtual_machines_list_all
| virtual_machines_list (group : string).

Definition call_result (c : call) : Type :=
  match c with
  | get_cloud_from_metadata_endpoint _ => Cloud.t
  | resource_groups_create_or_update _ _ => unit
  | begin _ => unit
  | result op => lro_result op
  | virtual_machines_get _ _ => VirtualMachine.t
  | disks_get _ _ => Disk.t
  | virtual_machines_list_all => list VirtualMachine.t
  | virtual_machines_list _ => list VirtualMachine.t
  end.

(** ** Exceptions, results, the trace *)

(** [CloudError] is the one exception [run_example] catches. *)
Inductive exn := CloudError | TypeError | OtherException.

Inductive res (A : Type) :=
| Ok (a : A)
| Raise (e : exn).
Arguments Ok {A} a.
Arguments Raise {A} e.

Inductive outcome := Returned | Raised (e : exn).

Definition outcome_of {A} (r : res A) : outcome :=
  match r with
  | Ok _ => Returned
  | Raise e => Raised e
  end.

(** One entry of the trace: the call and how it ended. *)
Record event := Ev { ev_call : call; ev_outcome : outcome }.

(** The service answers the [n]-th call of the run. *)
Definition Service : Type := ∀ (n : nat) (c : call), res (call_result c).

(** What the run has done so far: the calls, oldest first, and the lines
    printed. *)
Record World := mkWorld { trace : list event; stdout : list string }.

Definition initial : World := mkWorld [] [].

(** ** The monad of the script *)

Definition M (A : Type) : Type := World → World * res A.

Definition ret {A} (a : A) : M A := λ w, (w, Ok a).

Definition bind {A B} (m : M A) (k : A → M B) : M B := λ w,
  match m w with
  | (w', Ok a) => k a w'
  | (w', Raise e) => (w', Raise e)
  end.

Declare Scope script_scope.
Delimit Scope script_scope with script.
Bind Scope script_scope with M.
Notation "x ← y ; z" := (bind y (λ x : _, z))
  (at level 20, y at level 100, z at level 200, only parsing) : script_scope.
Notation "x ;; z" := (bind x (λ _, z))
  (at level 100, z at level 200, only parsing, right associativity)
  : script_scope.
Open Scope script_scope.

Definition raise {A} (e : exn) : M A := λ w, (w, Raise e).

Definition lift {A} (r : res A) : M A := λ w, (w, r).

Definition print (line : string) : M unit := λ w,
  (mkWorld (trace w) (stdout w ++ [line]), Ok tt).

(** [for x in l: body x]. *)
Fixpoint for_each {A} (l : list A) (body : A → M unit) : M unit :=
  match l with
  | [] => ret tt
  | x :: l' => body x;; for_each l' body
  end.

(** [try: body / except <catches>: handler / else: orelse].  The [else]
    clause runs when the body raised nothing; what it raises is not
    caught by the [except] clause. *)
Definition try_except_else {A B} (body : M A) (catches : exn → bool)
    (handler : M B) (orelse : A → M B) : M B := λ w,
  match body w with
  | (w', Ok a) => orelse a w'
  | (w', Raise e) => if catches e then handler w' else (w', Raise e)
  end.

(** [try: body / finally: final].  The [finally] clause always runs; an
    exception of the body is raised again after it, unless the clause
    raises one of its own. *)
Definition try_finally {A} (body : M A) (final : M unit) : M A := λ w,
  match body w with
  | (w', r) =>
      match final w' with
      | (w'', Ok _) => (w'', r)
      | (w'', Raise e) => (w'', Raise e)
      end
  end.

Definition is_CloudError (e : exn) : bool :=
  match e with
  | CloudError => true
  | _ => false
  end.

(** [v += d] on an attribute that may be [None]. *)
Definition iadd (v : option Z) (d : Z) : res Z :=
  match v with
  | Some z => Ok (z + d)%Z
  | None => Raise TypeError
  end.

(** The handle a [begin_*] method returns. *)
Inductive poller (op : lro) := Poller.

Section Script.
Variable svc : Service.

(** Issue a call: the service decides how it ends, the trace records
    it. *)
Definition perform (c : call) : M (call_result c) := λ w,
  let r := svc (length (trace w)) c in
  (mkWorld (trace w ++ [Ev c (outcome_of r)]) (stdout w), r).

Definition begin_ (op : lro) : M (poller op) :=
  perform (begin op);; ret (Poller op).

Definition result_ {op : lro} (p : poller op) : M (lro_result op) :=
  perform (result op).
End Script.

(** ** The script *)

Definition set_disk_size_gb (disk : Disk.t) (v : option Z) : Disk.t :=
  Disk.mk (Disk.id disk) (Disk.name disk) v.

(** Lines 223-229: the size the service reported, or 30 when it reported
    none, plus 10. *)
Definition resize_step (os_disk : Disk.t) : M Disk.t :=
  os_disk ←
    (if negb (truthy (Disk.disk_size_gb os_disk)) then
       print "Server is not returning the OS disk size, possible bug in the server?";;
       print "Assuming that the OS disk size is 30 GB";;
       ret (set_disk_size_gb os_disk (Some 30%Z))
     else ret os_disk);
  size ← lift (iadd (Disk.disk_size_gb os_disk) 10);
  ret (set_disk_size_gb os_disk (Some size)).

Section Example.
(** The module-level values drawn when the script is loaded: the random
    suffix, the name [haikunator.haikunate(delimiter='')] makes up, and
    [str(uuid.uuid4())]. *)
Variable postfix : Z.
Variable STORAGE_ACCOUNT_NAME : string.
Variable PASSWORD : string.

Variable svc : Service.

(** [create_nic] (lines 292-334). *)
Definition create_nic (LOCATION : string) : M NetworkInterface.t :=
  print "Create Vnet";;
  async_vnet_creation ←
    begin_ svc (virtual_networks_create_or_update
                  (GROUP_NAME postfix) (VNET_NAME postfix) LOCATION
                  ["10.0.0.0/16"]);
  result_ svc async_vnet_creation;;
  print "Create Subnet";;
  async_subnet_creation ←
    begin_ svc (subnets_create_or_update
                  (GROUP_NAME postfix) (VNET_NAME postfix)
                  (SUBNET_NAME postfix) "10.0.0.0/24");
  subnet_info ← result_ svc async_subnet_creation;
  print "Create NIC";;
  async_nic_creation ←
    begin_ svc (network_interfaces_create_or_update
                  (GROUP_NAME postfix) (NIC_NAME postfix) LOCATION
                  (IP_CONFIG_NAME postfix) (Subnet.id subnet_info));
  result_ svc async_nic_creation.

(** The body of the [try] statement (lines 119-278). *)
Definition try_body (LOCATION : string) : M unit :=
  print "Create a storage account";;
  storage_async_operation ←
    begin_ svc (storage_accounts_create
                  (GROUP_NAME postfix) STORAGE_ACCOUNT_NAME
                  "standard_lrs" "storage" LOCATION);
  result_ svc storage_async_operation;;
  nic ← create_nic LOCATION;
  print "Creating Linux Virtual Machine";;
  let vm_parameters :=
    create_vm_parameters postfix PASSWORD (NetworkInterface.id nic)
      (VM_REFERENCE linux) LOCATION in
  async_vm_creation ←
    begin_ svc (virtual_machines_create_or_update
                  (GROUP_NAME postfix) (VM_NAME postfix)
                  (VMCreate vm_parameters));
  result_ svc async_vm_creation;;
  print "Tag Virtual Machine";;
  async_vm_update ←
    begin_ svc (virtual_machines_create_or_update
                  (GROUP_NAME postfix) (VM_NAME postfix)
                  (VMTags LOCATION
                     [("who-rocks", "python"); ("where", "on azure")]));
  result_ svc async_vm_update;;
  print "Create (empty) managed Data Disk";;
  async_disk_creation ←
    begin_ svc (disks_create_or_update
                  (GROUP_NAME postfix) DATA_DISK_NAME
                  (DiskCreate LOCATION 1 DiskCreateOption.empty));
  data_disk ← result_ svc async_disk_creation;
  print "Get Virtual Machine by Name";;
  virtual_machine ←
    perform svc (virtual_machines_get (GROUP_NAME postfix) (VM_NAME postfix));
  print "Attach Data Disk";;
  let virtual_machine := attach_step virtual_machine (Disk.id data_disk) in
  async_disk_attach ←
    begin_ svc (virtual_machines_create_or_update
                  (GROUP_NAME postfix) (VirtualMachine.name virtual_machine)
                  (VMObject virtual_machine));
  result_ svc async_disk_attach;;
  print "Detach Data Disk";;
  let virtual_machine := detach_step virtual_machine in
  async_vm_update ←
    begin_ svc (virtual_machines_create_or_update
                  (GROUP_NAME postfix) (VM_NAME postfix)
                  (VMObject virtual_machine));
  virtual_machine ← result_ svc async_vm_update;
  print "Deallocating the VM (to prepare for a disk resize)";;
  async_vm_deallocate ←
    begin_ svc (virtual_machines_deallocate
                  (GROUP_NAME postfix) (VM_NAME postfix));
  result_ svc async_vm_deallocate;;
  print "Update OS disk size";;
  let os_disk_name :=
    OSDisk.name
      (StorageProfile.os_disk
         (VirtualMachine.storage_profile virtual_machine)) in
  os_disk ← perform svc (disks_get (GROUP_NAME postfix) os_disk_name);
  os_disk ← resize_step os_disk;
  async_disk_update ←
    begin_ svc (disks_create_or_update
                  (GROUP_NAME postfix) (Disk.name os_disk)
                  (DiskObject os_disk));
  result_ svc async_disk_update;;
  print "Start VM";;
  async_vm_start ←
    begin_ svc (virtual_machines_start (GROUP_NAME postfix) (VM_NAME postfix));
  result_ svc async_vm_start;;
  print "Restart VM";;
  async_vm_restart ←
    begin_ svc (virtual_machines_restart
                  (GROUP_NAME postfix) (VM_NAME postfix));
  result_ svc async_vm_restart;;
  print "Stop VM";;
  async_vm_stop ←
    begin_ svc (virtual_machines_power_off
                  (GROUP_NAME postfix) (VM_NAME postfix));
  result_ svc async_vm_stop;;
  print "List VMs in subscription";;
  vms ← perform svc virtual_machines_list_all;
  for_each vms (λ vm, print ("VM: " +:+ VirtualMachine.name vm));;
  print "List VMs in resource group";;
  vms ← perform svc (virtual_machines_list (GROUP_NAME postfix));
  for_each vms (λ vm, print ("VM: " +:+ VirtualMachine.name vm));;
  print "Delete VM";;
  async_vm_delete ←
    begin_ svc (virtual_machines_delete
                  (GROUP_NAME postfix) (VM_NAME postfix));
  result_ svc async_vm_delete;;
  print "Creating Windows Virtual Machine";;
  let vm_parameters :=
    create_vm_parameters postfix PASSWORD (NetworkInterface.id nic)
      (VM_REFERENCE windows) LOCATION in
  async_vm_creation ←
    begin_ svc (virtual_machines_create_or_update
                  (GROUP_NAME postfix) (VM_NAME postfix)
                  (VMCreate vm_parameters));
  result_ svc async_vm_creation;;
  ret tt.

(** The [finally] clause (lines 284-289). *)
Definition cleanup : M unit :=
  print "Delete Resource Group";;
  delete_async_operation ←
    begin_ svc (resource_groups_delete (GROUP_NAME postfix));
  result_ svc delete_async_operation;;
  print ("Deleted: " +:+ GROUP_NAME postfix).

(** The statements after the group creation: the [try] statement with
    its [except CloudError], [else] and [finally] clauses. *)
Definition guarded (LOCATION : string) : M unit :=
  try_finally
    (try_except_else (try_body LOCATION) is_CloudError
       (print "A VM operation failed:")
       (λ _, print "All example operations completed successfully!"))
    cleanup.

(** [run_example] (lines 63-289).  The credential and the four clients
    are objects built without a request; the calls made through them
    are the calls of the trace. *)
Definition run_example (config : Config.t) : M unit :=
  mystack_cloud ←
    perform svc (get_cloud_from_metadata_endpoint
                   (Config.resourceManagerUrl config));
  let LOCATION := Config.location config in
  print "Create Resource Group";;
  perform svc (resource_groups_create_or_update (GROUP_NAME postfix) LOCATION);;
  guarded LOCATION.
End Example.

(** ** Sample inputs *)

(** A service under which nothing fails: it hands out fixed identifiers
    and reports a machine without data disks and an OS disk of unknown
    size. *)
Definition sample_vm : VirtualMachine.t :=
  VirtualMachine.mk "VmName100"
    (StorageProfile.mk (OSDisk.mk "VmName100_OsDisk") []).

Definition obliging : Service := λ n c,
  match c return res (call_result c) with
  | get_cloud_from_metadata_endpoint url =>
      Ok (Cloud.mk "https://login.example/" "https://management.example/" url)
  | resource_groups_create_or_update _ _ => Ok tt
  | begin _ => Ok tt
  | result op =>
      match op return res (lro_result op) with
      | subnets_create_or_update _ _ _ _ => Ok (Subnet.mk "subnet-id")
      | network_interfaces_create_or_update _ _ _ _ _ =>
          Ok (NetworkInterface.mk "nic-id")
      | virtual_machines_create_or_update _ _ _ => Ok sample_vm
      | disks_create_or_update _ name _ => Ok (Disk.mk "disk-id" name None)
      | _ => Ok tt
      end
  | virtual_machines_get _ name =>
      Ok (VirtualMachine.mk name (VirtualMachine.storage_profile sample_vm))
  | disks_get _ name => Ok (Disk.mk "os-disk-id" name None)
  | virtual_machines_list_all => Ok [sample_vm]
  | virtual_machines_list _ => Ok [sample_vm]
  end.

Definition sample_config : Config.t :=
  Config.mk "https://management.example/" "subscription" "local" "client"
            "secret" "tenant".

(** A machine that holds two disks of other names. *)
Definition vm_holding_other : VirtualMachine.t :=
  VirtualMachine.mk "VmName100"
    (StorageProfile.mk (OSDisk.mk "VmName100_OsDisk")
       [DataDisk.mk 0 "scratch" DiskCreateOption.attach "scratch-id";
        DataDisk.mk 1 "logs" DiskCreateOption.attach "logs-id"]).

(** Attach followed by detach gives back the initial data-disk list, up
    to order. *)
Definition attach_detach_restores (vm : VirtualMachine.t)
    (data_disk_id : string) : Prop :=
  data_disks_of (detach_step (attach_step vm data_disk_id))
  ≡ₚ data_disks_of vm.

(** A machine that already holds a disk under the name the script uses. *)
Definition vm_holding_named : VirtualMachine.t :=
  VirtualMachine.mk "VmName100"
    (StorageProfile.mk (OSDisk.mk "VmName100_OsDisk")
       [DataDisk.mk 0 "mydatadisk1" DiskCreateOption.attach "earlier-disk-id"]).

(** ** Reading a trace *)

(** The calls of the [finally] clause: the submission of the group
    deletion, how it ended, and, when it returned a poller, the wait for
    the deletion and how that ended. *)
Definition cleanup_events (group : string) (o o' : outcome) : list event :=
  Ev (begin (resource_groups_delete group)) o ::
  match o with
  | Returned => [Ev (result (resource_groups_delete group)) o']
  | Raised _ => []
  end.

(** The world in which the [try] statement starts: the metadata request
    and the group creation have returned. *)
Definition group_created (postfix : Z) (config : Config.t) : World :=
  mkWorld
    [Ev (get_cloud_from_metadata_endpoint (Config.resourceManagerUrl config))
        Returned;
     Ev (resource_groups_create_or_update
           (GROUP_NAME postfix) (Config.location config))
        Returned]
    ["Create Resource Group"].

(** Every call of the run returned. *)
Definition succeeded (tr : list event) : Prop :=
  Forall (λ e, ev_outcome e = Returned) tr.

(** Every operation whose submission returned is waited for by the very
    next call of the trace. *)
Definition awaited (tr : list event) : Prop :=
  ∀ i op, tr !! i = Some (Ev (begin op) Returned) →
          ∃ o, tr !! S i = Some (Ev (result op) o).

(** The same, by recursion on the trace. *)
Fixpoint awaited_from (tr : list event) : Prop :=
  match tr with
  | [] => True
  | Ev (begin op) Returned :: rest =>
      match rest with
      | Ev (result op') _ :: _ => op' = op
      | _ => False
      end ∧ awaited_from rest
  | _ :: rest => awaited_from rest
  end.

(** How many calls of a trace satisfy [p]. *)
Fixpoint occurrences (p : call → bool) (tr : list event) : nat :=
  match tr with
  | [] => 0
  | e :: tr' => (if p (ev_call e) then 1 else 0) + occurrences p tr'
  end.

Definition is_group_create (c : call) : bool :=
  match c with
  | resource_groups_create_or_update _ _ => true
  | _ => false
  end.

Definition is_group_delete (c : call) : bool :=
  match c with
  | begin (resource_groups_delete _) => true
  | _ => false
  end.

Definition is_nic_create (c : call) : bool :=
  match c with
  | begin (network_interfaces_create_or_update _ _ _ _ _) => true
  | _ => false
  end.

(** The name under which a call creates a resource: the group, the
    storage account, the network, the subnet, the interface, a machine
    from the parameters of [create_vm_parameters], an empty disk. *)
Definition created_name (c : call) : option string :=
  match c with
  | resource_groups_create_or_update group _ => Some group
  | begin (storage_accounts_create _ name _ _ _) => Some name
  | begin (virtual_networks_create_or_update _ vnet _ _) => Some vnet
  | begin (subnets_create_or_update _ _ subnet _) => Some subnet
  | begin (network_interfaces_create_or_update _ nic _ _ _) => Some nic
  | begin (virtual_machines_create_or_update _ name (VMCreate _)) => Some name
  | begin (disks_create_or_update _ name (DiskCreate _ _ _)) => Some name
  | _ => None
  end.

Definition created_names (tr : list event) : list string :=
  omap (λ e, created_name (ev_call e)) tr.

(** The service is external.  Its machines are identified by group and
    name: a machine is taken to exist from the moment a create-or-update
    for its identity is accepted until a delete of that identity has
    completed. *)
Definition machines_step (vms : gset (string * string)) (e : event)
  : gset (string * string) :=
  match e with
  | Ev (begin (virtual_machines_create_or_update group name _)) Returned =>
      {[ (group, name) ]} ∪ vms
  | Ev (result (virtual_machines_delete group name)) Returned =>
      vms ∖ {[ (group, name) ]}
  | _ => vms
  end.

Definition machines (tr : list event) : gset (string * string) :=
  foldl machines_step ∅ tr.

(** The identity a create-or-update of a machine is submitted for. *)
Definition machine_submitted (c : call) : option (string * string) :=
  match c with
  | begin (virtual_machines_create_or_update group name _) =>
      Some (group, name)
  | _ => None
  end.

(** [virtual_machines.get] answers with the machine it was asked for. *)
Definition get_is_by_name (svc : Service) : Prop :=
  ∀ n group name vm,
    svc n (virtual_machines_get group name) = Ok vm →
    VirtualMachine.name vm = name.

(** A service that raises [e] at its [k]-th call and obliges otherwise. *)
Definition interrupted (k : nat) (e : exn) : Service := λ n c,
  if (n =? k)%nat then Raise e else obliging n c.

(** ** The calls of the [try] body, written out

    [try_body] issues its calls one after the other and stops at the
    first one that raises.  The calls it would issue if none raised are
    listed here, each with the values the service returned to the calls
    before it; that the body's trace is this list replayed against the
    service is proved below ([body_replays]). *)

(** The value a call returned; [default] stands in when it raised, in
    which case the run has stopped and the value is never used. *)
Definition returned {A} (default : A) (r : res A) : A :=
  match r with
  | Ok a => a
  | Raise _ => default
  end.

(** The trace of issuing [calls] in turn, the first as the [n]-th call of
    the run, up to and including the first one that raises. *)
Fixpoint replay (svc : Service) (n : nat) (calls : list call) : list event :=
  match calls with
  | [] => []
  | c :: calls' =>
      match svc n c with
      | Ok _ => Ev c Returned :: replay svc (S n) calls'
      | Raise e => [Ev c (Raised e)]
      end
  end.

(** In a list of calls, every submission is followed at once by the wait
    for the same operation. *)
Fixpoint paired (calls : list call) : Prop :=
  match calls with
  | [] => True
  | begin op :: rest =>
      match rest with
      | result op' :: _ => op' = op
      | _ => False
      end ∧ paired rest
  | _ :: rest => paired rest
  end.

(** The calls made inside the [try] body: all but the metadata request
    and the calls on the resource group itself. *)
Definition in_try_body (c : call) : bool :=
  match c with
  | get_cloud_from_metadata_endpoint _ => false
  | resource_groups_create_or_update _ _ => false
  | begin (resource_groups_delete _) => false
  | result (resource_groups_delete _) => false
  | _ => true
  end.

Section BodyScript.
Variable postfix : Z.
Variable STORAGE_ACCOUNT_NAME : string.
Variable PASSWORD : string.
Variable svc : Service.
Variable LOCATION : string.

Definition create_vnet : lro :=
  virtual_networks_create_or_update
    (GROUP_NAME postfix) (VNET_NAME postfix) LOCATION ["10.0.0.0/16"].

Definition create_subnet : lro :=
  subnets_create_or_update
    (GROUP_NAME postfix) (VNET_NAME postfix) (SUBNET_NAME postfix)
    "10.0.0.0/24".

(** What the wait for the subnet returned (call 7). *)
Definition the_subnet : Subnet.t :=
  returned (Subnet.mk "") (svc 7 (result create_subnet)).

Definition create_interface : lro :=
  network_interfaces_create_or_update
    (GROUP_NAME postfix) (NIC_NAME postfix) LOCATION
    (IP_CONFIG_NAME postfix) (Subnet.id the_subnet).

(** What the wait for the interface returned (call 9). *)
Definition the_nic : NetworkInterface.t :=
  returned (NetworkInterface.mk "") (svc 9 (result create_interface)).

Definition create_vm (k : os_key) : lro :=
  virtual_machines_create_or_update
    (GROUP_NAME postfix) (VM_NAME postfix)
    (VMCreate
       (create_vm_parameters postfix PASSWORD (NetworkInterface.id the_nic)
          (VM_REFERENCE k) LOCATION)).

Definition tag_vm : lro :=
  virtual_machines_create_or_update
    (GROUP_NAME postfix) (VM_NAME postfix)
    (VMTags LOCATION [("who-rocks", "python"); ("where", "on azure")]).

Definition create_data_disk : lro :=
  disks_create_or_update
    (GROUP_NAME postfix) DATA_DISK_NAME
    (DiskCreate LOCATION 1 DiskCreateOption.empty).

(** What the wait for the data disk returned (call 15). *)
Definition the_data_disk : Disk.t :=
  returned (Disk.mk "" "" None) (svc 15 (result create_data_disk)).

(** The machine [virtual_machines.get] returned (call 16). *)
Definition the_vm : VirtualMachine.t :=
  returned (VirtualMachine.mk "" (StorageProfile.mk (OSDisk.mk "") []))
    (svc 16 (virtual_machines_get (GROUP_NAME postfix) (VM_NAME postfix))).

Definition attached_vm : VirtualMachine.t :=
  attach_step the_vm (Disk.id the_data_disk).

Definition attach_disk : lro :=
  virtual_machines_create_or_update
    (GROUP_NAME postfix) (VirtualMachine.name attached_vm)
    (VMObject attached_vm).

Definition detach_disk : lro :=
  virtual_machines_create_or_update
    (GROUP_NAME postfix) (VM_NAME postfix)
    (VMObject (detach_step attached_vm)).

(** The machine the wait for the detach returned (call 20). *)
Definition the_updated_vm : VirtualMachine.t :=
  returned (VirtualMachine.mk "" (StorageProfile.mk (OSDisk.mk "") []))
    (svc 20 (result detach_disk)).

Definition get_os_disk : call :=
  disks_get (GROUP_NAME postfix)
    (OSDisk.name
       (StorageProfile.os_disk
          (VirtualMachine.storage_profile the_updated_vm))).

(** The disk [disks.get] returned (call 23), and that disk after lines
    223-229. *)
Definition the_os_disk : Disk.t :=
  returned (Disk.mk "" "" None) (svc 23 get_os_disk).

Definition resized_os_disk : Disk.t :=
  returned the_os_disk (resize_step the_os_disk initial).2.

Definition update_os_disk : lro :=
  disks_create_or_update
    (GROUP_NAME postfix) (Disk.name resized_os_disk)
    (DiskObject resized_os_disk).

(** The calls of the [try] body, in order; the first is call 2 of the
    run. *)
Definition body_script : list call :=
  let group := GROUP_NAME postfix in
  let vm := VM_NAME postfix in
  [ begin (storage_accounts_create
             group STORAGE_ACCOUNT_NAME "standard_lrs" "storage" LOCATION);
    result (storage_accounts_create
              group STORAGE_ACCOUNT_NAME "standard_lrs" "storage" LOCATION);
    begin create_vnet; result create_vnet;
    begin create_subnet; result create_subnet;
    begin create_interface; result create_interface;
    begin (create_vm linux); result (create_vm linux);
    begin tag_vm; result tag_vm;
    begin create_data_disk; result create_data_disk;
    virtual_machines_get group vm;
    begin attach_disk; result attach_disk;
    begin detach_disk; result detach_disk;
    begin (virtual_machines_deallocate group vm);
    result (virtual_machines_deallocate group vm);
    get_os_disk;
    begin update_os_disk; result update_os_disk;
    begin (virtual_machines_start group vm);
    result (virtual_machines_start group vm);
    begin (virtual_machines_restart group vm);
    result (virtual_machines_restart group vm);
    begin (virtual_machines_power_off group vm);
    result (virtual_machines_power_off group vm);
    virtual_machines_list_all;
    virtual_machines_list group;
    begin (virtual_machines_delete group vm);
    result (virtual_machines_delete group vm);
    begin (create_vm windows); result (create_vm windows) ].
End BodyScript.

(** The calls of [create_nic], in order, for the subnet identifier the
    service returned. *)
Definition nic_calls (postfix : Z) (LOCATION subnet_id : string) : list call :=
  [ begin (create_vnet postfix LOCATION);
    result (create_vnet postfix LOCATION);
    begin (create_subnet postfix);
    result (create_subnet postfix);
    begin (network_interfaces_create_or_update
             (GROUP_NAME postfix) (NIC_NAME postfix) LOCATION
             (IP_CONFIG_NAME postfix) subnet_id);
    result (network_interfaces_create_or_update
              (GROUP_NAME postfix) (NIC_NAME postfix) LOCATION
              (IP_CONFIG_NAME postfix) subnet_id) ].

(** Every name under which the run creates a resource contains the
    decimal numeral of [postfix]. *)
Definition names_embed_postfix (postfix : Z) (tr : list event) : Prop :=
  Forall (λ name, contains (format_int postfix) name = true)
         (created_names tr).

(** The trace of a sample run: suffix 100, against a given service. *)
Definition sample_run (svc : Service) : list event :=
  trace (run_example 100 "wispydust1234" "secret" svc sample_config
           initial).1.

(** What replaying [calls] ends in: the first exception, or nothing. *)
Fixpoint replay_result (svc : Service) (n : nat) (calls : list call)
  : res unit :=
  match calls with
  | [] => Ok tt
  | c :: calls' =>
      match svc n c with
      | Ok _ => replay_result svc (S n) calls'
      | Raise e => Raise e
      end
  end.

(** How the [try] statement ends, from how its body ended and how the
    two calls of the [finally] clause ended. *)
Definition guarded_outcome (body : res unit) (o o' : outcome) : res unit :=
  match o, o' with
  | Raised e, _ => Raise e
  | Returned, Raised e => Raise e
  | Returned, Returned =>
      match body with
      | Ok _ => Ok tt
      | Raise e => if is_CloudError e then Ok tt else Raise e
      end
  end.

(** The resource group a call is made in, for the calls that take one. *)
Definition call_group (c : call) : option string :=
  match c with
  | get_cloud_from_metadata_endpoint _ => None
  | resource_groups_create_or_update group _ => Some group
  | begin op | result op =>
      match op with
      | storage_accounts_create group _ _ _ _
      | virtual_networks_create_or_update group _ _ _
      | subnets_create_or_update group _ _ _
      | network_interfaces_create_or_update group _ _ _ _
      | virtual_machines_create_or_update group _ _
      | disks_create_or_update group _ _
      | virtual_machines_deallocate group _
      | virtual_machines_start group _
      | virtual_machines_restart group _
      | virtual_machines_power_off group _
      | virtual_machines_delete group _
      | resource_groups_delete group => Some group
      end
  | virtual_machines_get group _ => Some group
  | disks_get group _ => Some group
  | virtual_machines_list_all => None
  | virtual_machines_list group => Some group
  end.

(** Reading a decimal numeral back ([int(s)]). *)
Definition parse_int (s : string) : option Z :=
  Z.of_int <$> NilZero.int_of_string s.

(** The sample run itself, with the world and the result it ends in. *)
Definition sample_example (svc : Service) : World * res unit :=
  run_example 100 "wispydust1234" "secret" svc sample_config initial.

(** The tag update of the sample run, the call at which the interrupted
    sample runs fail. *)
Definition sample_tag_update : call :=
  begin (virtual_machines_create_or_update (GROUP_NAME 100) (VM_NAME 100)
           (VMTags "local" [("who-rocks", "python"); ("where", "on azure")])).

(** * Properties *)

(** ** Strings *)

Lemma prefix_refl (s : string) : String.prefix s s = true.
Proof.
  induction s as [|a s IH]; simpl; [done|].
  destruct (Ascii.ascii_dec a a); [done | congruence].
Qed.

Lemma contains_refl (s : string) : contains s s = true.
Proof.
  destruct s as [|a s]; [done|].
  change (String.prefix (String a s) (String a s)
          || contains (String a s) s = true).
  by rewrite prefix_refl.
Qed.

Lemma contains_append (base s : string) : contains s (base +:+ s) = true.
Proof.
  induction base as [|a base IH]; simpl.
  - apply contains_refl.
  - rewrite IH. apply orb_true_r.
Qed.

(** ** The detach filter *)

Section Comprehension.
Context {A : Type} (keep : A → bool).

Lemma comprehension_foldl (acc l : list A) :
  foldl (λ acc x, if keep x then acc ++ [x] else acc) acc l
  = acc ++ filter (λ x, keep x = true) l.
Proof.
  revert acc. induction l as [|x l IH]; intros acc; simpl.
  - by rewrite app_nil_r.
  - rewrite IH. destruct (keep x) eqn:Hx.
    + rewrite filter_cons_True by done. by rewrite <-app_assoc.
    + rewrite filter_cons_False by congruence. done.
Qed.

Lemma comprehension_filter (l : list A) :
  comprehension keep l = filter (λ x, keep x = true) l.
Proof. unfold comprehension. by rewrite comprehension_foldl. Qed.
End Comprehension.

Lemma detach_list_filter (l : list DataDisk.t) :
  detach_list l = filter (λ disk, DataDisk.name disk ≠ DATA_DISK_NAME) l.
Proof.
  unfold detach_list. rewrite comprehension_filter.
  apply list_filter_iff. intros disk.
  rewrite negb_true_iff. apply String.eqb_neq.
Qed.

Lemma detach_list_app (l1 l2 : list DataDisk.t) :
  detach_list (l1 ++ l2) = detach_list l1 ++ detach_list l2.
Proof. rewrite !detach_list_filter. apply filter_app. Qed.

Lemma detach_list_absent (l : list DataDisk.t) :
  Forall (λ disk, DataDisk.name disk ≠ DATA_DISK_NAME) l →
  detach_list l = l.
Proof.
  rewrite detach_list_filter.
  induction 1 as [|disk l Hdisk _ IH]; [done|].
  rewrite filter_cons_True by done. by rewrite IH.
Qed.

Lemma detach_list_clean (l : list DataDisk.t) :
  Forall (λ disk, DataDisk.name disk ≠ DATA_DISK_NAME) (detach_list l).
Proof.
  rewrite detach_list_filter. apply Forall_forall.
  intros disk Hin. by apply list_elem_of_filter in Hin as [? _].
Qed.

Lemma data_disks_set (vm : VirtualMachine.t) (l : list DataDisk.t) :
  data_disks_of (set_data_disks vm l) = l.
Proof. done. Qed.

Lemma attach_detach_list (vm : VirtualMachine.t) (data_disk_id : string) :
  data_disks_of (detach_step (attach_step vm data_disk_id))
  = detach_list (data_disks_of vm).
Proof.
  unfold detach_step, attach_step. rewrite !data_disks_set.
  rewrite detach_list_app. replace (detach_list [_]) with (@nil DataDisk.t).
  - apply app_nil_r.
  - done.
Qed.

(** C9.  On every data-disk list the detach filter removes every entry
    named ['mydatadisk1'] and keeps all other entries in their original
    order: it is the order-preserving filter on the name, its result is
    a sublist of its argument with exactly the entries of another name.
    Hence a list without such an entry is left unchanged, and detaching
    twice is detaching once. *)
Theorem detach_removes_named_keeps_rest (l : list DataDisk.t) :
  detach_list l = filter (λ disk, DataDisk.name disk ≠ DATA_DISK_NAME) l
  ∧ detach_list l `sublist_of` l
  ∧ (∀ disk, disk ∈ detach_list l
             ↔ disk ∈ l ∧ DataDisk.name disk ≠ DATA_DISK_NAME)
  ∧ (Forall (λ disk, DataDisk.name disk ≠ DATA_DISK_NAME) l
     → detach_list l = l)
  ∧ detach_list (detach_list l) = detach_list l.
Proof.
  split_and!.
  - apply detach_list_filter.
  - rewrite detach_list_filter. apply sublist_filter.
  - intros disk. rewrite detach_list_filter, list_elem_of_filter. tauto.
  - apply detach_list_absent.
  - apply detach_list_absent, detach_list_clean.
Qed.

(** C3 fails on a list that already has an entry named ['mydatadisk1']:
    the filter of the detach step removes that entry as well. *)
Lemma attach_detach_drops_earlier_entry :
  ¬ attach_detach_restores vm_holding_named "disk-id".
Proof.
  unfold attach_detach_restores. intros Hperm.
  apply Permutation_length in Hperm. vm_compute in Hperm. discriminate.
Qed.

(** C3, amended.  When no entry of the initial list is named
    ['mydatadisk1'], attach followed by detach leaves the machine's
    data-disk list as it was before the attach, in the same order. *)
Theorem attach_detach_roundtrip (vm : VirtualMachine.t)
    (data_disk_id : string) :
  Forall (λ disk, DataDisk.name disk ≠ DATA_DISK_NAME) (data_disks_of vm) →
  data_disks_of (detach_step (attach_step vm data_disk_id))
  = data_disks_of vm.
Proof.
  intros Hfresh. rewrite attach_detach_list. by apply detach_list_absent.
Qed.

Lemma attach_detach_roundtrip_witness :
  data_disks_of (detach_step (attach_step vm_holding_other "disk-id"))
  = data_disks_of vm_holding_other.
Proof.
  apply (attach_detach_roundtrip vm_holding_other "disk-id").
  repeat constructor; discriminate.
Defined.

(** ** The resize step *)

(** The size submitted for a disk that was reported with size [v]. *)
Lemma resize_step_runs (os_disk : Disk.t) (w : World) :
  ∃ w' size,
    resize_step os_disk w = (w', Ok (set_disk_size_gb os_disk (Some size)))
    ∧ trace w' = trace w
    ∧ size = match Disk.disk_size_gb os_disk with
             | None => 40%Z
             | Some s => if (s =? 0)%Z then 40%Z else (s + 10)%Z
             end.
Proof.
  unfold resize_step, bind, lift, print, ret.
  destruct os_disk as [id name [s|]]; simpl.
  - destruct (s =? 0)%Z eqn:Hs; simpl; eauto.
  - eauto.
Qed.

(** On a disk reported without a size, or with size 0, the resize step
    does not raise and yields the disk with size 30 + 10 = 40; on a disk
    of positive size [s] it yields the disk with size [s + 10].  It
    issues no call. *)
Lemma resize_step_size (os_disk : Disk.t) (w : World) :
  (Disk.disk_size_gb os_disk = None ∨ Disk.disk_size_gb os_disk = Some 0%Z
   → ∃ w', resize_step os_disk w
           = (w', Ok (set_disk_size_gb os_disk (Some 40%Z)))
           ∧ trace w' = trace w)
  ∧ (∀ s, (0 < s)%Z → Disk.disk_size_gb os_disk = Some s
     → ∃ w', resize_step os_disk w
             = (w', Ok (set_disk_size_gb os_disk (Some (s + 10)%Z)))
             ∧ trace w' = trace w).
Proof.
  destruct (resize_step_runs os_disk w) as (w' & size & Hrun & Htrace & Hsize).
  split.
  - intros [Hnone|Hzero]; exists w'; split; try done.
    + rewrite Hrun, Hsize, Hnone. done.
    + rewrite Hrun, Hsize, Hzero. done.
  - intros s Hpos Hs. exists w'. split; [|done].
    rewrite Hrun, Hsize, Hs.
    destruct (Z.eqb_spec s 0); [lia | done].
Qed.

(** ** The control structure of the script *)

Lemma for_each_print {A} (f : A → string) (l : list A) (w : World) :
  for_each l (λ x w', (mkWorld (trace w') (stdout w' ++ [f x]), Ok tt)) w
  = (mkWorld (trace w) (stdout w ++ map f l), Ok tt).
Proof.
  revert w. induction l as [|x l IH]; intros [tr out]; simpl.
  - by rewrite app_nil_r.
  - unfold bind; simpl. rewrite IH; simpl. by rewrite <-app_assoc.
Qed.

Lemma try_finally_trace {A} (body : M A) (final : M unit) (w : World) :
  trace (try_finally body final w).1 = trace (final (body w).1).1.
Proof.
  unfold try_finally. destruct (body w) as [w1 r]; cbn.
  by destruct (final w1) as [w2 [[]|e]].
Qed.

Lemma try_except_else_print_trace {A} (body : M A) (catches : exn → bool)
    (failed succeeded : string) (w : World) :
  trace (try_except_else body catches (print failed)
           (λ _, print succeeded) w).1
  = trace (body w).1.
Proof.
  unfold try_except_else. destruct (body w) as [w1 [a|e]]; cbn; [done|].
  by destruct (catches e).
Qed.

(** ** Traces *)

Lemma awaited_from_app (tr1 tr2 : list event) :
  awaited_from tr1 → awaited_from tr2 → awaited_from (tr1 ++ tr2).
Proof.
  intros H1 H2. induction tr1 as [|[c o] tr1 IH]; [done|].
  destruct c as [| |op| | | | |], o; cbn in *; auto.
  destruct H1 as [Hnext H1]. split; [|auto].
  destruct tr1 as [|[[] ?] ?]; cbn in *; done.
Qed.

Lemma awaited_from_awaited (tr : list event) : awaited_from tr → awaited tr.
Proof.
  intros Htr i. revert tr Htr.
  induction i as [|i IH]; intros [|[c o] tr] Htr op Hi; try done.
  - cbn in Hi. injection Hi as -> ->. cbn in Htr. destruct Htr as [Hnext _].
    destruct tr as [|[[] o'] tr]; try done. subst. by exists o'.
  - cbn in Hi. apply (IH tr); [|done].
    destruct c as [| |op'| | | | |], o; cbn in Htr; tauto.
Qed.

Lemma occurrences_app (p : call → bool) (tr1 tr2 : list event) :
  occurrences p (tr1 ++ tr2) = occurrences p tr1 + occurrences p tr2.
Proof. induction tr1 as [|e tr1 IH]; cbn; [done|]. rewrite IH. lia. Qed.

Lemma succeeded_app (tr1 tr2 : list event) :
  succeeded (tr1 ++ tr2) ↔ succeeded tr1 ∧ succeeded tr2.
Proof. apply Forall_app. Qed.


(** ** Replaying a list of calls *)

Section Replay.
Context (svc : Service).

Lemma replay_lookup (n : nat) (calls : list call) (i : nat) (c : call)
    (o : outcome) :
  replay svc n calls !! i = Some (Ev c o) →
  calls !! i = Some c ∧ o = outcome_of (svc (n + i) c).
Proof.
  revert n i. induction calls as [|c' calls IH]; intros n i Hi; [done|].
  cbn in Hi. destruct (svc n c') as [a|e] eqn:Hsvc.
  - destruct i as [|i]; cbn in *.
    + injection Hi as <- <-. by rewrite Nat.add_0_r, Hsvc.
    + apply IH in Hi. by rewrite Nat.add_succ_r.
  - destruct i as [|i]; cbn in *; [|done].
    injection Hi as <- <-. by rewrite Nat.add_0_r, Hsvc.
Qed.

(** A call is issued only after every call before it has returned. *)
Lemma replay_before (n : nat) (calls : list call) (i j : nat) (e : event) :
  replay svc n calls !! i = Some e → j < i →
  ∃ c, calls !! j = Some c
       ∧ replay svc n calls !! j = Some (Ev c Returned)
       ∧ outcome_of (svc (n + j) c) = Returned.
Proof.
  revert n i j. induction calls as [|c' calls IH]; intros n i j Hi Hj;
    [done|].
  cbn in Hi |- *. destruct (svc n c') as [a|e'] eqn:Hsvc.
  - destruct i as [|i]; [lia|]. destruct j as [|j]; cbn in *.
    + exists c'. by rewrite Nat.add_0_r, Hsvc.
    + rewrite Nat.add_succ_r. apply (IH (S n) i j); [done | lia].
  - destruct i as [|i]; [lia | done].
Qed.

(** After a call that returned, the next call of the list is issued. *)
Lemma replay_next (n : nat) (calls : list call) (i : nat) (c c' : call) :
  replay svc n calls !! i = Some (Ev c Returned) →
  calls !! S i = Some c' →
  replay svc n calls !! S i
  = Some (Ev c' (outcome_of (svc (n + S i) c'))).
Proof.
  revert n i. induction calls as [|c0 calls IH]; intros n i Hi Hnext;
    [done|].
  cbn in Hi |- *. destruct (svc n c0) as [a|e] eqn:Hsvc.
  - destruct i as [|i]; cbn in *.
    + destruct calls as [|c1 calls]; [done|]. cbn in *.
      injection Hnext as ->. rewrite Nat.add_1_r.
      by destruct (svc (S n) c').
    + rewrite Nat.add_succ_r. by apply IH.
  - destruct i as [|i]; cbn in *; [by injection Hi | done].
Qed.

Lemma replay_calls (n : nat) (calls : list call) :
  map ev_call (replay svc n calls) `prefix_of` calls.
Proof.
  revert n. induction calls as [|c calls IH]; intros n; cbn.
  - done.
  - destruct (svc n c); cbn.
    + by apply prefix_cons.
    + by apply prefix_cons, prefix_nil.
Qed.

Lemma replay_awaited (n : nat) (calls : list call) :
  paired calls → awaited_from (replay svc n calls).
Proof.
  revert n. induction calls as [|c calls IH]; intros n Hp; [done|].
  cbn. destruct (svc n c) as [a|e] eqn:Hsvc.
  - assert (awaited_from (replay svc (S n) calls)) as Hrest.
    { apply IH. destruct c; cbn in Hp; tauto. }
    destruct c as [| |op| | | | |]; cbn; try done.
    split; [|done]. destruct Hp as [Hnext _].
    destruct calls as [|[] calls]; try done. cbn.
    by destruct (svc (S n) _).
  - by destruct c.
Qed.

Lemma replay_occurrences (p : call → bool) (n : nat) (calls : list call) :
  occurrences p (replay svc n calls)
  ≤ occurrences p (map (λ c, Ev c Returned) calls).
Proof.
  revert n. induction calls as [|c calls IH]; intros n; cbn; [done|].
  destruct (svc n c); cbn; [specialize (IH (S n)) |]; lia.
Qed.

Lemma replay_Forall (P : call → Prop) (n : nat) (calls : list call) :
  Forall P calls → Forall (λ e, P (ev_call e)) (replay svc n calls).
Proof.
  intros HP. revert n. induction HP as [|c calls Hc _ IH]; intros n; cbn.
  - constructor.
  - destruct (svc n c); repeat constructor; auto.
Qed.
End Replay.

Section Run.
Context (postfix : Z) (STORAGE_ACCOUNT_NAME PASSWORD : string).
Context (svc : Service) (config : Config.t).

Local Abbreviation GROUP := (GROUP_NAME postfix).
Local Abbreviation VM := (VM_NAME postfix).
Local Abbreviation LOCATION := (Config.location config).
Local Abbreviation get_cloud :=
  (get_cloud_from_metadata_endpoint (Config.resourceManagerUrl config)).
Local Abbreviation create_group :=
  (resource_groups_create_or_update GROUP LOCATION).
Local Abbreviation run :=
  (trace (run_example postfix STORAGE_ACCOUNT_NAME PASSWORD svc config
            initial).1).
Local Abbreviation body :=
  (trace (try_body postfix STORAGE_ACCOUNT_NAME PASSWORD svc LOCATION
            (group_created postfix config)).1).
Local Abbreviation script :=
  (body_script postfix STORAGE_ACCOUNT_NAME PASSWORD svc LOCATION).

Lemma cleanup_trace (w : World) :
  ∃ o o', trace (cleanup postfix svc w).1
          = trace w ++ cleanup_events GROUP o o'.
Proof.
  unfold cleanup, begin_, result_, perform, print, bind, ret, cleanup_events.
  cbn.
  destruct (svc (length (trace w)) _) as [[]|e]; cbn.
  - destruct (svc _ _) as [[]|e]; cbn.
    + exists Returned, Returned. by rewrite <-app_assoc.
    + exists Returned, (Raised e). by rewrite <-app_assoc.
  - by exists (Raised e), Returned.
Qed.

Lemma guarded_trace (w : World) :
  ∃ o o',
    trace (guarded postfix STORAGE_ACCOUNT_NAME PASSWORD svc LOCATION w).1
    = trace (try_body postfix STORAGE_ACCOUNT_NAME PASSWORD svc LOCATION
               w).1
      ++ cleanup_events GROUP o o'.
Proof.
  unfold guarded. rewrite try_finally_trace.
  edestruct cleanup_trace as (o & o' & ->). exists o, o'.
  by rewrite try_except_else_print_trace.
Qed.

(** Case analysis on the replies of the service, call by call: when a
    call raises both sides stop; when it returns the walk goes on. *)
Ltac settle :=
  repeat lazymatch goal with
    | |- context [for_each ?l _ _] => rewrite for_each_print; cbn
    | |- context [Disk.disk_size_gb ?d] =>
        is_var d; destruct d as [? ? [?|]]; cbn
    | |- context [(?s =? 0)%Z] => destruct (Z.eqb_spec s 0); cbn
    end.

Ltac walk n :=
  settle;
  lazymatch goal with
  | |- context [svc n ?c] =>
      destruct (svc n c) eqn:?; cbn;
      [ let m := eval cbn in (S n) in walk m | reflexivity ]
  | _ => reflexivity
  end.

(** The trace of the [try] body is its script, replayed. *)
Lemma body_replays :
  body = trace (group_created postfix config) ++ replay svc 2 script.
Proof.
  unfold try_body, create_nic, resize_step, body_script.
  unfold update_os_disk, resized_os_disk, the_os_disk, get_os_disk,
    the_updated_vm, detach_disk, attach_disk, attached_vm, the_vm,
    the_data_disk, create_data_disk, tag_vm, create_vm, the_nic,
    create_interface, the_subnet, create_subnet, create_vnet, resize_step.
  unfold begin_, result_, perform, bind, ret, lift, print.
  cbn. walk 2.
Qed.

(** The body raises what the first failing call raised. *)
Lemma body_result :
  (try_body postfix STORAGE_ACCOUNT_NAME PASSWORD svc LOCATION
     (group_created postfix config)).2
  = replay_result svc 2 script.
Proof.
  unfold try_body, create_nic, resize_step, body_script.
  unfold update_os_disk, resized_os_disk, the_os_disk, get_os_disk,
    the_updated_vm, detach_disk, attach_disk, attached_vm, the_vm,
    the_data_disk, create_data_disk, tag_vm, create_vm, the_nic,
    create_interface, the_subnet, create_subnet, create_vnet, resize_step.
  unfold begin_, result_, perform, bind, ret, lift, print.
  cbn. walk 2.
Qed.

(** The three ways a run can go: the metadata request fails, the group
    creation fails, or the [try] statement is entered and the run ends
    with the calls of its [finally] clause. *)
Lemma run_example_cases :
  (∃ e, run = [Ev get_cloud (Raised e)])
  ∨ (∃ e, run = [Ev get_cloud Returned; Ev create_group (Raised e)])
  ∨ (∃ o o', run = [Ev get_cloud Returned; Ev create_group Returned]
                   ++ replay svc 2 script ++ cleanup_events GROUP o o').
Proof.
  unfold run_example, perform, print, bind. cbn.
  destruct (svc 0 _) as [cloud|e]; cbn; [|eauto].
  destruct (svc 1 _) as [[]|e]; cbn; [|eauto].
  right; right.
  edestruct guarded_trace as (o & o' & ->). exists o, o'.
  change (mkWorld _ _) with (group_created postfix config).
  rewrite body_replays. by rewrite <-app_assoc.
Qed.

Local Opaque replay.

(** Where a call of the [try] body sits in the run: at its place in the
    script, after every earlier call of the script has returned, and,
    when it returned itself, followed by the next call of the script. *)
Lemma run_lookup_body (i : nat) (c : call) (o : outcome) :
  run !! i = Some (Ev c o) → in_try_body c = true →
  ∃ k, i = 2 + k
       ∧ script !! k = Some c
       ∧ o = outcome_of (svc i c)
       ∧ (∀ j c', j < k → script !! j = Some c' →
            run !! (2 + j) = Some (Ev c' Returned)
            ∧ outcome_of (svc (2 + j) c') = Returned)
       ∧ (∀ c', o = Returned → script !! S k = Some c' →
            ∃ o', run !! S i = Some (Ev c' o')).
Proof.
  intros Hi Hc.
  destruct run_example_cases as [[e Hrun]|[[e Hrun]|(o1 & o2 & Hrun)]];
    rewrite Hrun in Hi |- *.
  - destruct i as [|i]; [|done]. cbn in Hi. by injection Hi as <- <-.
  - destruct i as [|[|i]]; [| |done]; cbn in Hi; by injection Hi as <- <-.
  - destruct i as [|[|i]]; cbn in Hi; [by injection Hi as <- <- ..|].
    apply lookup_app_Some in Hi as [Hi|[_ Hi]].
    + exists i. destruct (replay_lookup _ _ _ _ _ _ Hi) as [Hk ->].
      split_and!; try done.
      * intros j c' Hj Hj'.
        destruct (replay_before _ _ _ _ j _ Hi Hj) as (c'' & ? & ? & ?).
        simplify_eq. split; [|done]. cbn. by apply lookup_app_l_Some.
      * intros c' Ho Hnext. rewrite Ho in Hi.
        eexists. cbn. apply lookup_app_l_Some.
        by apply replay_next with (c := c).
    + unfold cleanup_events in Hi.
      destruct (i - _) as [|[|?]], o1; cbn in Hi; try done;
        by injection Hi as <- <-.
Qed.
Local Transparent replay.
End Run.

(** ** The run *)

Lemma occurrences_lookup (p : call → bool) (tr : list event) (i : nat)
    (e : event) :
  tr !! i = Some e → p (ev_call e) = true → 1 ≤ occurrences p tr.
Proof.
  revert i. induction tr as [|e' tr IH]; intros [|i] Hi Hp; try done; cbn in *.
  - injection Hi as ->. rewrite Hp. lia.
  - specialize (IH i Hi Hp). lia.
Qed.

Lemma created_names_Forall (Q : string → Prop) (tr : list event) :
  Forall (λ e, ∀ name, created_name (ev_call e) = Some name → Q name) tr →
  Forall Q (created_names tr).
Proof.
  unfold created_names. induction 1 as [|e tr He _ IH]; cbn; [constructor|].
  destruct (created_name (ev_call e)) as [name|]; [|done].
  constructor; auto.
Qed.

Lemma machines_within (id : string * string) (tr : list event) :
  Forall (λ e, ∀ id', machine_submitted (ev_call e) = Some id' → id' = id)
         tr →
  machines tr ⊆ {[ id ]}.
Proof.
  unfold machines. intros Htr.
  assert (∀ vms : gset (string * string),
            vms ⊆ {[ id ]} → foldl machines_step vms tr ⊆ {[ id ]}) as Hgen.
  { induction Htr as [|[c o] tr He _ IH]; intros vms Hvms; [done|].
    cbn. apply IH.
    destruct c as [| |op|op| | | |]; cbn; try done;
      destruct op; cbn; try done; destruct o; cbn; try done.
    - rewrite (He (group, name) eq_refl). set_solver.
    - set_solver. }
  apply Hgen. set_solver.
Qed.

Ltac lengths :=
  rewrite ?length_app; cbn [length]; rewrite ?Nat.add_1_r.

Section Nic.
Context (postfix : Z) (svc : Service) (LOCATION : string).

Lemma create_nic_replays (w : World) :
  ∃ subnet_id,
    trace (create_nic postfix svc LOCATION w).1
    = trace w ++ replay svc (length (trace w))
                   (nic_calls postfix LOCATION subnet_id).
Proof.
  destruct w as [tr out].
  exists (Subnet.id
            (returned (Subnet.mk "")
               (svc (3 + length tr) (result (create_subnet postfix))))).
  unfold create_nic, nic_calls, begin_, result_, perform, print, bind, ret.
  cbn.
  destruct (svc (length tr) _) as [[]|e]; cbn; [|done]. lengths.
  destruct (svc (S (length tr)) _) as [[]|e]; cbn;
    [|by rewrite <-?app_assoc]. lengths.
  destruct (svc (S (S (length tr))) _) as [[]|e]; cbn;
    [|by rewrite <-?app_assoc]. lengths.
  destruct (svc (S (S (S (length tr)))) _) as [subnet_info|e]; cbn;
    [|by rewrite <-?app_assoc]. lengths.
  destruct (svc (S (S (S (S (length tr))))) _) as [[]|e]; cbn;
    [|by rewrite <-?app_assoc]. lengths.
  destruct (svc (S (S (S (S (S (length tr)))))) _) as [nic|e]; cbn;
    by rewrite <-?app_assoc.
Qed.

Lemma create_nic_vnet_refused (w : World) (e : exn) :
  svc (length (trace w)) (begin (create_vnet postfix LOCATION)) = Raise e →
  create_nic postfix svc LOCATION w
  = (mkWorld (trace w ++ [Ev (begin (create_vnet postfix LOCATION))
                             (Raised e)])
             (stdout w ++ ["Create Vnet"]),
     Raise e).
Proof.
  intros Hsvc.
  unfold create_nic, begin_, result_, perform, print, bind, ret. cbn.
  unfold create_vnet in Hsvc. by rewrite Hsvc.
Qed.

Lemma create_nic_vnet_failed (w : World) (e : exn) :
  svc (length (trace w)) (begin (create_vnet postfix LOCATION)) = Ok tt →
  svc (S (length (trace w))) (result (create_vnet postfix LOCATION))
  = Raise e →
  create_nic postfix svc LOCATION w
  = (mkWorld (trace w ++ [Ev (begin (create_vnet postfix LOCATION)) Returned;
                          Ev (result (create_vnet postfix LOCATION))
                             (Raised e)])
             (stdout w ++ ["Create Vnet"]),
     Raise e).
Proof.
  intros Hbegin Hresult.
  unfold create_nic, begin_, result_, perform, print, bind, ret. cbn.
  unfold create_vnet in Hbegin, Hresult. rewrite Hbegin. cbn. lengths.
  rewrite Hresult. cbn. by rewrite <-app_assoc.
Qed.

(** C4.  [create_nic] issues its calls in the order network, subnet,
    interface, each submission followed by its wait, and a call is
    issued only when every call before it has returned.  When the
    creation of the network fails, at its submission or at its wait,
    [create_nic] raises that failure and has issued no call for the
    subnet or the interface. *)
Theorem create_nic_in_order (w : World) :
  let out := create_nic postfix svc LOCATION w in
  let n := length (trace w) in
  let vnet := create_vnet postfix LOCATION in
  ∃ subnet_id evs,
    trace out.1 = trace w ++ evs
    ∧ map ev_call evs `prefix_of` nic_calls postfix LOCATION subnet_id
    ∧ (∀ i e, evs !! i = Some e → S i < length evs →
              ev_outcome e = Returned)
    ∧ (∀ e, svc n (begin vnet) = Raise e →
            out.2 = Raise e ∧ evs = [Ev (begin vnet) (Raised e)])
    ∧ (∀ e, svc n (begin vnet) = Ok tt →
            svc (S n) (result vnet) = Raise e →
            out.2 = Raise e
            ∧ evs = [Ev (begin vnet) Returned;
                     Ev (result vnet) (Raised e)]).
Proof.
  intros out n vnet. destruct (create_nic_replays w) as [subnet_id Htrace].
  exists subnet_id, (replay svc n (nic_calls postfix LOCATION subnet_id)).
  split_and!.
  - exact Htrace.
  - apply replay_calls.
  - intros i e Hi Hlt.
    apply lookup_lt_is_Some_2 in Hlt as [e' He'].
    destruct (replay_before _ _ _ _ i _ He' (Nat.lt_succ_diag_r i))
      as (c & _ & Hc & _).
    rewrite Hc in Hi. by injection Hi as <-.
  - intros e Hsvc. subst out. rewrite (create_nic_vnet_refused w e Hsvc).
    split; [done|]. cbn. subst n vnet. by rewrite Hsvc.
  - intros e Hbegin Hresult. subst out.
    rewrite (create_nic_vnet_failed w e Hbegin Hresult).
    split; [done|]. cbn. subst n vnet. by rewrite Hbegin, Hresult.
Qed.
End Nic.

(** Find the place [k] of a call in the script from
    [H : script !! k = Some c]. *)
Ltac unfold_script H :=
  unfold body_script, update_os_disk, get_os_disk, detach_disk,
    attach_disk, create_data_disk, tag_vm, create_vm, create_interface,
    create_subnet, create_vnet in H.

Ltac locate H k :=
  unfold_script H;
  repeat lazymatch type of H with
    | (_ :: _) !! _ = _ =>
        destruct k as [|k];
        [try discriminate H | cbn [lookup list_lookup] in H]
    end;
  try discriminate H.

Section Claims.
Context (postfix : Z) (STORAGE_ACCOUNT_NAME PASSWORD : string).
Context (svc : Service) (config : Config.t).

Local Abbreviation GROUP := (GROUP_NAME postfix).
Local Abbreviation VM := (VM_NAME postfix).
Local Abbreviation LOCATION := (Config.location config).
Local Abbreviation get_cloud :=
  (get_cloud_from_metadata_endpoint (Config.resourceManagerUrl config)).
Local Abbreviation create_group :=
  (resource_groups_create_or_update GROUP LOCATION).
Local Abbreviation run :=
  (trace (run_example postfix STORAGE_ACCOUNT_NAME PASSWORD svc config
            initial).1).
Local Abbreviation script :=
  (body_script postfix STORAGE_ACCOUNT_NAME PASSWORD svc LOCATION).

Local Opaque replay.

(** C1.  In every run in which the resource-group creation returns, the
    run ends with the calls of the [finally] clause: the group deletion
    is submitted and, as soon as the submission has handed back its
    poller, waited for, as the last calls before [run_example]
    terminates.  This holds whatever the calls in between do: all
    return, one raises [CloudError] (caught), or one raises another
    exception (not caught). *)
Theorem group_deleted_on_every_exit :
  Ev create_group Returned ∈ run →
  ∃ before o o', run = before ++ cleanup_events GROUP o o'.
Proof.
  intros Hcreated.
  destruct (run_example_cases postfix STORAGE_ACCOUNT_NAME PASSWORD svc
              config) as [[e Hrun]|[[e Hrun]|(o & o' & Hrun)]];
    rewrite Hrun in Hcreated |- *.
  - apply list_elem_of_singleton in Hcreated. discriminate.
  - apply elem_of_cons in Hcreated as [?|Hcreated]; [discriminate|].
    apply list_elem_of_singleton in Hcreated. discriminate.
  - eexists _, o, o'. by rewrite app_assoc.
Qed.

(** C5.  In every run in which every call returns, exactly one
    resource-group creation and exactly one resource-group deletion are
    issued, whatever the service returns for the resources created
    inside the group. *)
Theorem one_group_created_one_deleted :
  succeeded run →
  occurrences is_group_create run = 1
  ∧ occurrences is_group_delete run = 1.
Proof.
  intros Hok.
  destruct (run_example_cases postfix STORAGE_ACCOUNT_NAME PASSWORD svc
              config) as [[e Hrun]|[[e Hrun]|(o & o' & Hrun)]];
    rewrite Hrun in Hok |- *.
  - by apply Forall_cons_1 in Hok as [? _].
  - apply Forall_cons_1 in Hok as [_ Hok].
    by apply Forall_cons_1 in Hok as [? _].
  - rewrite !occurrences_app.
    pose proof (replay_occurrences svc is_group_create 2 script).
    pose proof (replay_occurrences svc is_group_delete 2 script).
    cbn in *. by destruct o; cbn; split; lia.
Qed.

(** C7.  In every run, every long-running operation whose submission
    returned is waited for by the very next call, so no other call is
    issued before it has reached a terminal status.  In particular the
    submission of the resized OS disk comes after the wait for the
    deallocation of the machine has returned. *)
Theorem every_operation_awaited :
  awaited run
  ∧ ∀ i group name disk o,
      run !! i = Some (Ev (begin (disks_create_or_update group name
                                    (DiskObject disk))) o) →
      ∃ j, j < i
           ∧ run !! j
             = Some (Ev (result (virtual_machines_deallocate GROUP VM))
                        Returned).
Proof.
  split.
  - apply awaited_from_awaited.
    destruct (run_example_cases postfix STORAGE_ACCOUNT_NAME PASSWORD svc
                config) as [[e ->]|[[e ->]|(o & o' & ->)]]; [done..|].
    apply awaited_from_app; [done|]. apply awaited_from_app.
    + apply replay_awaited. cbn. by repeat split.
    + by destruct o.
  - intros i group name disk o Hi.
    apply run_lookup_body in Hi as (k & -> & Hk & _ & Hbefore & _); [|done].
    locate Hk k. clear Hk.
    exists (2 + 20). split; [lia|].
    apply Hbefore; [lia | reflexivity].
Qed.

(** C6.  When the create-or-update for the Windows machine is issued,
    the wait for the Linux machine's deletion has returned before it,
    and the network-interface identifier in its parameters is the
    identifier of the interface that the wait for the interface
    creation returned earlier in the run; that creation is the only
    interface creation of the run. *)
Theorem windows_vm_reuses_nic (i : nat) (group name : string)
    (parameters : VMParameters.t) (o : outcome) :
  run !! i = Some (Ev (begin (virtual_machines_create_or_update group name
                                (VMCreate parameters))) o) →
  VMParameters.image_reference parameters = VM_REFERENCE windows →
  ∃ j k subnet_id nic,
    j < k < i
    ∧ run !! j
      = Some (Ev (result (network_interfaces_create_or_update
                            GROUP (NIC_NAME postfix) LOCATION
                            (IP_CONFIG_NAME postfix) subnet_id))
                 Returned)
    ∧ svc j (result (network_interfaces_create_or_update
                       GROUP (NIC_NAME postfix) LOCATION
                       (IP_CONFIG_NAME postfix) subnet_id))
      = Ok nic
    ∧ run !! k
      = Some (Ev (result (virtual_machines_delete GROUP VM)) Returned)
    ∧ VMParameters.network_interfaces parameters
      = [NetworkInterface.id nic]
    ∧ occurrences is_nic_create run = 1.
Proof.
  intros Hi Himage.
  pose proof Hi as Hrun.
  apply run_lookup_body in Hi as (k & -> & Hk & _ & Hbefore & _); [|done].
  locate Hk k.
  - injection Hk as <- <- <-. discriminate Himage.
  - injection Hk as <- <- <-. clear Himage.
    destruct (Hbefore 7 (result (create_interface postfix svc LOCATION)))
      as [Hnic Hreturned]; [lia | reflexivity |].
    destruct (Hbefore 6 (begin (create_interface postfix svc LOCATION)))
      as [Hbegin _]; [lia | reflexivity |].
    destruct (Hbefore 33 (result (virtual_machines_delete GROUP VM)))
      as [Hdelete _]; [lia | reflexivity |].
    cbn [Nat.add] in Hnic, Hreturned, Hbegin, Hdelete |- *.
    exists 9, 35, (Subnet.id (the_subnet postfix svc)).
    unfold the_nic.
    destruct (svc 9 (result (create_interface postfix svc LOCATION)))
      as [nic|e] eqn:Hsvc; [|discriminate Hreturned].
    exists nic. split_and!; [lia | lia | exact Hnic | exact Hsvc
                            | exact Hdelete | reflexivity |].
    apply Nat.le_antisymm.
    + clear Hrun Hbefore Hnic Hbegin Hdelete.
      destruct (run_example_cases postfix STORAGE_ACCOUNT_NAME PASSWORD svc
                  config) as [[e ->]|[[e ->]|(o1 & o2 & ->)]];
        [cbn; lia..|].
      rewrite !occurrences_app.
      pose proof (replay_occurrences svc is_nic_create 2 script) as Hle.
      cbn in Hle |- *. destruct o1; cbn; lia.
    + by apply (occurrences_lookup _ _ _ _ Hbegin).
Qed.

Lemma run_machine_identity :
  get_is_by_name svc →
  Forall (λ e, ∀ id, machine_submitted (ev_call e) = Some id →
                     id = (GROUP, VM))
         run.
Proof.
  intros Hget. apply Forall_lookup_2. intros i [c o] Hi id Hid.
  destruct c as [| |op| | | | |]; try discriminate Hid.
  destruct op; try discriminate Hid. cbn in Hid. injection Hid as <-.
  apply run_lookup_body in Hi as (k & -> & Hk & _ & Hbefore & _); [|done].
  locate Hk k; injection Hk as <- <- _; try reflexivity.
  destruct (Hbefore 14 (virtual_machines_get GROUP VM))
    as [_ Hreturned]; [lia | reflexivity |].
  cbn [Nat.add] in Hreturned. unfold attached_vm, the_vm. cbn.
  destruct (svc 16 (virtual_machines_get GROUP VM)) as [vm|e] eqn:Hsvc;
    [|discriminate Hreturned].
  cbn. by rewrite (Hget _ _ _ _ Hsvc).
Qed.

(** C10.  Against a service whose [get] answers with the machine asked
    for, at every point of a run at most one machine exists in the
    resource group: every machine creation, Linux or Windows, is
    submitted for the group and the one name [VM_NAME], and the Windows
    creation is issued only after the Linux machine was created and the
    wait for its deletion has returned. *)
Theorem at_most_one_machine :
  get_is_by_name svc →
  (∀ n, size (machines (take n run)) ≤ 1)
  ∧ (∀ i group name parameters o,
       run !! i = Some (Ev (begin (virtual_machines_create_or_update
                                     group name (VMCreate parameters))) o) →
       group = GROUP ∧ name = VM)
  ∧ (∀ i group name parameters o,
       run !! i = Some (Ev (begin (virtual_machines_create_or_update
                                     group name (VMCreate parameters))) o) →
       VMParameters.image_reference parameters = VM_REFERENCE windows →
       ∃ l j linux_parameters,
         l < j < i
         ∧ VMParameters.image_reference linux_parameters
           = VM_REFERENCE linux
         ∧ run !! l
           = Some (Ev (begin (virtual_machines_create_or_update
                                GROUP VM (VMCreate linux_parameters)))
                      Returned)
         ∧ run !! j
           = Some (Ev (result (virtual_machines_delete GROUP VM))
                      Returned)).
Proof.
  intros Hget. split_and!.
  - intros n.
    assert (machines (take n run) ⊆ {[ (GROUP, VM) ]}) as Hsub.
    { apply machines_within, Forall_take, run_machine_identity, Hget. }
    apply subseteq_size in Hsub. by rewrite size_singleton in Hsub.
  - intros i group name parameters o Hi.
    apply run_lookup_body in Hi as (k & -> & Hk & _); [|done].
    locate Hk k; by injection Hk as <- <- _.
  - intros i group name parameters o Hi Himage.
    apply run_lookup_body in Hi as (k & -> & Hk & _ & Hbefore & _); [|done].
    locate Hk k.
    + injection Hk as <- <- <-. discriminate Himage.
    + clear Hk Himage.
      destruct (Hbefore 8 (begin (create_vm postfix PASSWORD svc LOCATION
                                    linux)))
        as [Hlinux _]; [lia | reflexivity |].
      destruct (Hbefore 33 (result (virtual_machines_delete GROUP VM)))
        as [Hdelete _]; [lia | reflexivity |].
      eexists 10, 35, _. split_and!;
        [lia | lia | | exact Hlinux | exact Hdelete]. reflexivity.
Qed.

Ltac known_name :=
  let name := fresh "name" in
  let Hname := fresh "Hname" in
  cbn; intros name Hname; try discriminate Hname;
  injection Hname as <-;
  repeat first [apply list_elem_of_here | apply list_elem_of_further].

Ltac known_names :=
  repeat (apply Forall_cons_2; [known_name|]); apply Forall_nil_2.

(** C8, amended.  Every resource the run creates is named by the
    storage-account name the haikunator returned, by the literal
    ['mydatadisk1'], or by one of the seven names built at load time
    from the single random suffix; each of these seven contains the
    suffix. *)
Theorem created_names_origin :
  Forall (λ name, name ∈ STORAGE_ACCOUNT_NAME :: DATA_DISK_NAME
                          :: postfix_names postfix)
         (created_names run)
  ∧ Forall (λ name, contains (format_int postfix) name = true)
           (postfix_names postfix).
Proof.
  split.
  - apply created_names_Forall. unfold postfix_names.
    destruct (run_example_cases postfix STORAGE_ACCOUNT_NAME PASSWORD svc
                config) as [[e ->]|[[e ->]|(o & o' & ->)]].
    + known_names.
    + known_names.
    + repeat apply Forall_app_2.
      * known_names.
      * apply (replay_Forall svc
                 (λ c, ∀ name, created_name c = Some name →
                       name ∈ [STORAGE_ACCOUNT_NAME; DATA_DISK_NAME;
                               GROUP; VNET_NAME postfix;
                               SUBNET_NAME postfix; OS_DISK_NAME postfix;
                               IP_CONFIG_NAME postfix; NIC_NAME postfix;
                               VM])).
        unfold body_script. known_names.
      * destruct o; known_names.
  - unfold postfix_names. repeat constructor; apply contains_append.
Qed.

(** C2.  When [disks.get] has returned the OS disk, the next call of the
    run submits that disk with a new size, so the step raises nothing
    in between: the size is 30 + 10 = 40 when the disk was reported
    without a size or with size 0, and [s + 10] when a positive size
    [s] was reported. *)
Theorem os_disk_resize_submission (i : nat) (group name : string)
    (os_disk : Disk.t) :
  run !! i = Some (Ev (disks_get group name) Returned) →
  svc i (disks_get group name) = Ok os_disk →
  ∃ size o,
    run !! S i
    = Some (Ev (begin (disks_create_or_update GROUP (Disk.name os_disk)
                         (DiskObject
                            (set_disk_size_gb os_disk (Some size)))))
               o)
    ∧ (Disk.disk_size_gb os_disk = None
       ∨ Disk.disk_size_gb os_disk = Some 0%Z → size = 40%Z)
    ∧ (∀ s, (0 < s)%Z → Disk.disk_size_gb os_disk = Some s
            → size = (s + 10)%Z).
Proof.
  intros Hi Hsvc.
  apply run_lookup_body in Hi as (k & -> & Hk & _ & _ & Hnext); [|done].
  locate Hk k. injection Hk as <- <-.
  destruct (Hnext (begin (update_os_disk postfix svc LOCATION)))
    as [o Ho]; [reflexivity..|].
  cbn [Nat.add] in Hsvc, Ho.
  unfold update_os_disk, resized_os_disk, the_os_disk, get_os_disk in Ho.
  rewrite Hsvc in Ho. cbn [returned] in Ho.
  destruct (resize_step_runs os_disk initial)
    as (w' & size & Hrun & _ & Hsize).
  rewrite Hrun in Ho. cbn in Ho.
  exists size, o. split; [exact Ho|]. rewrite Hsize. clear.
  split.
  - by intros [->| ->].
  - intros s Hs ->. destruct (Z.eqb_spec s 0); [lia | done].
Qed.
End Claims.

(** ** Sample runs *)

Lemma obliging_get_is_by_name : get_is_by_name obliging.
Proof. intros n group name vm Hget. cbn in Hget. by injection Hget as <-. Qed.

Lemma obliging_succeeded : succeeded (sample_run obliging).
Proof. unfold succeeded. vm_compute. repeat constructor. Qed.

Lemma group_deleted_on_every_exit_witness :
  ∃ before o o',
    sample_run (interrupted 12 OtherException)
    = before ++ cleanup_events (GROUP_NAME 100) o o'.
Proof.
  apply (group_deleted_on_every_exit 100 "wispydust1234" "secret"
           (interrupted 12 OtherException) sample_config).
  apply (list_elem_of_lookup_2 _ 1). reflexivity.
Defined.

Lemma one_group_created_one_deleted_witness :
  occurrences is_group_create (sample_run obliging) = 1
  ∧ occurrences is_group_delete (sample_run obliging) = 1.
Proof.
  apply (one_group_created_one_deleted 100 "wispydust1234" "secret" obliging
           sample_config).
  unfold succeeded. vm_compute. repeat constructor.
Defined.

Lemma windows_vm_reuses_nic_witness :
  ∃ j k subnet_id nic,
    j < k < 36
    ∧ sample_run obliging !! j
      = Some (Ev (result (network_interfaces_create_or_update
                            (GROUP_NAME 100) (NIC_NAME 100) "local"
                            (IP_CONFIG_NAME 100) subnet_id))
                 Returned)
    ∧ obliging j (result (network_interfaces_create_or_update
                            (GROUP_NAME 100) (NIC_NAME 100) "local"
                            (IP_CONFIG_NAME 100) subnet_id))
      = Ok nic
    ∧ sample_run obliging !! k
      = Some (Ev (result (virtual_machines_delete
                            (GROUP_NAME 100) (VM_NAME 100)))
                 Returned)
    ∧ VMParameters.network_interfaces
        (create_vm_parameters 100 "secret" "nic-id" (VM_REFERENCE windows)
           "local")
      = [NetworkInterface.id nic]
    ∧ occurrences is_nic_create (sample_run obliging) = 1.
Proof.
  apply (windows_vm_reuses_nic 100 "wispydust1234" "secret" obliging
           sample_config 36 (GROUP_NAME 100) (VM_NAME 100)
           (create_vm_parameters 100 "secret" "nic-id" (VM_REFERENCE windows)
              "local")
           Returned).
  - reflexivity.
  - reflexivity.
Defined.

Lemma at_most_one_machine_witness :
  size (machines (take 12 (sample_run obliging))) ≤ 1.
Proof.
  refine (proj1 (at_most_one_machine 100 "wispydust1234" "secret" obliging
                   sample_config _) 12).
  intros n group name vm Hget. cbn in Hget. by injection Hget as <-.
Defined.

Lemma os_disk_resize_submission_witness :
  ∃ size o,
    sample_run obliging !! 24
    = Some (Ev (begin (disks_create_or_update (GROUP_NAME 100)
                         "VmName100_OsDisk"
                         (DiskObject
                            (Disk.mk "os-disk-id" "VmName100_OsDisk"
                                     (Some size)))))
               o)
    ∧ (@None Z = None ∨ @None Z = Some 0%Z → size = 40%Z)
    ∧ (∀ s, (0 < s)%Z → @None Z = Some s → size = (s + 10)%Z).
Proof.
  apply (os_disk_resize_submission 100 "wispydust1234" "secret" obliging
           sample_config 23 (GROUP_NAME 100) "VmName100_OsDisk"
           (Disk.mk "os-disk-id" "VmName100_OsDisk" None)).
  - reflexivity.
  - reflexivity.
Defined.

(** C8 fails on the sample run: the storage account is named by the
    haikunator and the data disk by a literal, and neither name contains
    the suffix. *)
Lemma created_names_lack_postfix :
  ¬ names_embed_postfix 100 (sample_run obliging).
Proof.
  unfold names_embed_postfix. intros Hall.
  apply (Forall_lookup_1 _ _ 6 "mydatadisk1") in Hall; [|reflexivity].
  vm_compute in Hall. discriminate Hall.
Qed.

(** * Further properties *)

(** ** How a run ends *)

Section ReplayResult.
Context (svc : Service).

Lemma replay_raised_last (n : nat) (calls : list call) (i : nat) (c : call)
    (e : exn) :
  replay svc n calls !! i = Some (Ev c (Raised e)) →
  length (replay svc n calls) = S i ∧ replay_result svc n calls = Raise e.
Proof.
  revert n i. induction calls as [|c' calls IH]; intros n i Hi; [done|].
  cbn in Hi |- *. destruct (svc n c') as [a|e'].
  - destruct i as [|i]; [done|]. cbn in Hi |- *.
    destruct (IH _ _ Hi) as [-> ?]. done.
  - destruct i as [|i]; cbn in Hi; [|done]. by injection Hi as <- <-.
Qed.

Lemma replay_result_Ok (n : nat) (calls : list call) :
  replay_result svc n calls = Ok tt ↔
  replay svc n calls = map (λ c, Ev c Returned) calls.
Proof.
  revert n. induction calls as [|c calls IH]; intros n; cbn; [done|].
  destruct (svc n c) as [a|e].
  - rewrite IH. split; [by intros -> | by intros [= ->]].
  - split; [done | by intros [= ? ?]].
Qed.

Lemma replay_result_Raise (n : nat) (calls : list call) (e : exn) :
  replay_result svc n calls = Raise e →
  ∃ c, last (replay svc n calls) = Some (Ev c (Raised e)).
Proof.
  revert n. induction calls as [|c calls IH]; intros n; cbn; [done|].
  destruct (svc n c) as [a|e'] eqn:Hsvc.
  - intros Hr. destruct (IH _ Hr) as [c' Hlast]. exists c'.
    destruct (replay svc (S n) calls); [done|]. done.
  - intros [= ->]. by exists c.
Qed.
End ReplayResult.

Lemma try_finally_eq {A} (body : M A) (final : M unit) (w : World) :
  try_finally body final w
  = ((final (body w).1).1,
     match (final (body w).1).2 with
     | Ok _ => (body w).2
     | Raise e => Raise e
     end).
Proof.
  unfold try_finally. destruct (body w) as [w1 r]; cbn.
  by destruct (final w1) as [w2 [[]|e]].
Qed.

Lemma try_except_else_print (body : M unit) (failed succeeded : string)
    (w : World) :
  let out :=
    try_except_else body is_CloudError (print failed)
      (λ _, print succeeded) w in
  trace out.1 = trace (body w).1
  ∧ out.2 = match (body w).2 with
            | Ok _ => Ok tt
            | Raise e => if is_CloudError e then Ok tt else Raise e
            end.
Proof.
  unfold try_except_else. destruct (body w) as [w1 [a|e]]; cbn; [done|].
  by destruct (is_CloudError e).
Qed.

Section Outcome.
Context (postfix : Z) (STORAGE_ACCOUNT_NAME PASSWORD : string).
Context (svc : Service) (config : Config.t).

Local Abbreviation GROUP := (GROUP_NAME postfix).
Local Abbreviation VM := (VM_NAME postfix).
Local Abbreviation LOCATION := (Config.location config).
Local Abbreviation get_cloud :=
  (get_cloud_from_metadata_endpoint (Config.resourceManagerUrl config)).
Local Abbreviation create_group :=
  (resource_groups_create_or_update GROUP LOCATION).
Local Abbreviation delete_group := (resource_groups_delete GROUP).
Local Abbreviation example :=
  (run_example postfix STORAGE_ACCOUNT_NAME PASSWORD svc config initial).
Local Abbreviation run := (trace example.1).
Local Abbreviation script :=
  (body_script postfix STORAGE_ACCOUNT_NAME PASSWORD svc LOCATION).

Lemma cleanup_outcome (w : World) :
  ∃ o o',
    trace (cleanup postfix svc w).1 = trace w ++ cleanup_events GROUP o o'
    ∧ (cleanup postfix svc w).2 = guarded_outcome (Ok tt) o o'
    ∧ (o = Returned → o' = Returned →
       last (stdout (cleanup postfix svc w).1)
       = Some ("Deleted: " +:+ GROUP)).
Proof.
  unfold cleanup, begin_, result_, perform, print, bind, ret, cleanup_events.
  cbn.
  destruct (svc (length (trace w)) _) as [[]|e]; cbn.
  - destruct (svc _ _) as [[]|e]; cbn.
    + exists Returned, Returned. rewrite <-app_assoc. split_and!; try done.
      intros _ _. by rewrite last_snoc.
    + exists Returned, (Raised e). by rewrite <-app_assoc.
  - by exists (Raised e), Returned.
Qed.

Lemma guarded_outcome_spec (w : World) :
  let body :=
    try_body postfix STORAGE_ACCOUNT_NAME PASSWORD svc LOCATION w in
  let out := guarded postfix STORAGE_ACCOUNT_NAME PASSWORD svc LOCATION w in
  ∃ o o',
    trace out.1 = trace body.1 ++ cleanup_events GROUP o o'
    ∧ out.2 = guarded_outcome body.2 o o'
    ∧ (o = Returned → o' = Returned →
       last (stdout out.1) = Some ("Deleted: " +:+ GROUP)).
Proof.
  intros body out. subst out. unfold guarded.
  rewrite try_finally_eq.
  pose proof (try_except_else_print
                (try_body postfix STORAGE_ACCOUNT_NAME PASSWORD svc LOCATION)
                "A VM operation failed:"
                "All example operations completed successfully!" w)
    as [Htrace Hresult].
  fold body in Htrace, Hresult.
  destruct (try_except_else _ _ _ _ w) as [w1 r1]. cbn in Htrace, Hresult.
  destruct (cleanup_outcome w1) as (o & o' & Htr & Hres & Hout).
  exists o, o'. cbn [fst snd]. rewrite Htr, Hres, Htrace, Hresult.
  split_and!; [done | | done].
  destruct o, o'; cbn; try done; by destruct (body.2) as [[]|e].
Qed.

(** How a run ends, case by case. *)
Lemma run_example_outcome :
  (∃ e, run = [Ev get_cloud (Raised e)] ∧ example.2 = Raise e)
  ∨ (∃ e, run = [Ev get_cloud Returned; Ev create_group (Raised e)]
          ∧ example.2 = Raise e)
  ∨ (∃ o o',
       run = [Ev get_cloud Returned; Ev create_group Returned]
             ++ replay svc 2 script ++ cleanup_events GROUP o o'
       ∧ example.2 = guarded_outcome (replay_result svc 2 script) o o'
       ∧ (o = Returned → o' = Returned →
          last (stdout example.1) = Some ("Deleted: " +:+ GROUP))).
Proof.
  unfold run_example, perform, print, bind. cbn.
  destruct (svc 0 _) as [cloud|e]; cbn; [|eauto].
  destruct (svc 1 _) as [[]|e]; cbn; [|eauto 6].
  right; right.
  change (mkWorld _ _) with (group_created postfix config).
  destruct (guarded_outcome_spec (group_created postfix config))
    as (o & o' & Htr & Hres & Hout).
  exists o, o'. rewrite Htr, Hres, body_result, body_replays.
  by rewrite <-app_assoc.
Qed.

Local Opaque replay replay_result.

Lemma script_in_try_body : Forall (λ c, in_try_body c = true) script.
Proof. unfold body_script. repeat constructor. Qed.

(** The run has entered the [try] statement as soon as it holds a call
    of the body or of the [finally] clause. *)
Lemma run_entered (i : nat) (c : call) (o : outcome) :
  run !! i = Some (Ev c o) →
  c ≠ get_cloud → c ≠ create_group →
  ∃ o1 o2,
    run = [Ev get_cloud Returned; Ev create_group Returned]
          ++ replay svc 2 script ++ cleanup_events GROUP o1 o2
    ∧ example.2 = guarded_outcome (replay_result svc 2 script) o1 o2
    ∧ (o1 = Returned → o2 = Returned →
       last (stdout example.1) = Some ("Deleted: " +:+ GROUP)).
Proof.
  intros Hi Hget Hcreate.
  destruct run_example_outcome
    as [(e & Hrun & _)|[(e & Hrun & _)|(o1 & o2 & Hrun)]];
    [rewrite Hrun in Hi..|by eauto].
  - destruct i as [|i]; [|done]. cbn in Hi. by injection Hi as <- <-.
  - destruct i as [|[|i]]; [| |done]; cbn in Hi; by injection Hi as <- <-.
Qed.

(** X1.  When a call of the [try] body raises, every call before it has
    returned and the very next call is the submission of the group
    deletion: no further call of the body is issued and none is issued
    again. *)
Theorem body_failure_goes_to_cleanup (i : nat) (c : call) (e : exn) :
  run !! i = Some (Ev c (Raised e)) → in_try_body c = true →
  ∃ o, run !! S i = Some (Ev (begin (resource_groups_delete GROUP)) o)
       ∧ ∀ j c' o', j < i → run !! j = Some (Ev c' o') → o' = Returned.
Proof.
  intros Hi Hc.
  destruct (run_entered i c _ Hi) as (o1 & o2 & Hrun & _);
    [by intros -> | by intros -> |].
  rewrite Hrun in Hi |- *.
  destruct i as [|[|i]]; cbn in Hi; [by injection Hi as <- .. |].
  apply lookup_app_Some in Hi as [Hi|[_ Hi]].
  - destruct (replay_raised_last _ _ _ _ _ _ Hi) as [Hlen _].
    exists o1. split.
    + change ((replay svc 2 script ++ cleanup_events GROUP o1 o2) !! S i
              = Some (Ev (begin (resource_groups_delete GROUP)) o1)).
      rewrite lookup_app_r by lia. by rewrite Hlen, Nat.sub_diag.
    + intros j c' o' Hj Hj'. destruct j as [|[|j]];
        [by injection Hj' as <- <- ..|].
      change ((replay svc 2 script ++ cleanup_events GROUP o1 o2) !! j
              = Some (Ev c' o')) in Hj'.
      rewrite lookup_app_l in Hj' by lia.
      destruct (replay_before _ _ _ _ j _ Hi) as (c'' & _ & Hc'' & _);
        [lia|].
      rewrite Hc'' in Hj'. by injection Hj' as <- <-.
  - unfold cleanup_events in Hi.
    destruct (i - _) as [|[|?]], o1; cbn in Hi; try done;
      injection Hi as <- _; done.
Qed.

Lemma replay_in_try_body (n i : nat) (c : call) (o : outcome) :
  replay svc n script !! i = Some (Ev c o) → in_try_body c = true.
Proof.
  intros Hi. apply replay_lookup in Hi as [Hc _].
  by apply (Forall_lookup_1 _ _ _ _
              script_in_try_body Hc).
Qed.

(** Where a call sits in a run that entered the [try] statement. *)
Lemma entered_lookup (o1 o2 : outcome) (i : nat) (c : call) (o : outcome) :
  ([Ev get_cloud Returned; Ev create_group Returned]
   ++ replay svc 2 script ++ cleanup_events GROUP o1 o2) !! i
  = Some (Ev c o) →
  (c = get_cloud ∧ o = Returned)
  ∨ (c = create_group ∧ o = Returned)
  ∨ (∃ k, i = 2 + k ∧ replay svc 2 script !! k = Some (Ev c o))
  ∨ (c = begin delete_group ∧ o = o1)
  ∨ (c = result delete_group ∧ o1 = Returned ∧ o = o2).
Proof.
  intros Hi. destruct i as [|[|i]].
  - left. by injection Hi as <- <-.
  - right; left. by injection Hi as <- <-.
  - change ((replay svc 2 script ++ cleanup_events GROUP o1 o2) !! i
            = Some (Ev c o)) in Hi.
    apply lookup_app_Some in Hi as [Hi|[_ Hi]]; [by eauto 6|].
    right; right; right. unfold cleanup_events in Hi.
    destruct (i - _) as [|[|?]], o1; cbn in Hi; try done;
      injection Hi as <- <-; auto.
Qed.

(** The last call of a run that entered the [try] statement is the last
    call of the [finally] clause. *)
Lemma last_entered (o1 o2 : outcome) :
  last ([Ev get_cloud Returned; Ev create_group Returned]
        ++ replay svc 2 script ++ cleanup_events GROUP o1 o2)
  = Some (match o1 with
          | Returned => Ev (result delete_group) o2
          | Raised e => Ev (begin delete_group) o1
          end).
Proof.
  rewrite !last_app. by destruct o1.
Qed.

(** X2.  [run_example] returns normally only when the wait for the group
    deletion was its last call and returned; the last line it printed is
    then the one that reports the deletion. *)
Theorem normal_return_means_group_deleted :
  (run_example postfix STORAGE_ACCOUNT_NAME PASSWORD svc config initial).2
  = Ok tt →
  last run = Some (Ev (result (resource_groups_delete (GROUP_NAME postfix)))
                      Returned)
  ∧ last (stdout example.1) = Some ("Deleted: " +:+ GROUP_NAME postfix).
Proof.
  intros Hok.
  destruct run_example_outcome
    as [(e & _ & He)|[(e & _ & He)|(o1 & o2 & Hrun & Hres & Hout)]];
    [congruence..|].
  rewrite Hrun, last_entered. rewrite Hres in Hok.
  destruct o1 as [|e1], o2 as [|e2]; try discriminate Hok. auto.
Qed.

(** X3.  A [CloudError] raised by a call of the [try] body is caught: when
    the group deletion then returns, [run_example] returns normally. *)
Theorem cloud_error_in_body_is_caught (i : nat) (c : call) :
  run !! i = Some (Ev c (Raised CloudError)) → in_try_body c = true →
  last run = Some (Ev (result delete_group) Returned) →
  example.2 = Ok tt.
Proof.
  intros Hi Hc Hlast.
  destruct (run_entered i c _ Hi) as (o1 & o2 & Hrun & Hres & _);
    [by intros -> | by intros -> |].
  rewrite Hrun in Hi, Hlast. rewrite last_entered in Hlast. rewrite Hres.
  apply entered_lookup
    in Hi as [[-> _]|[[-> _]|[(k & _ & Hk)|[[-> _]|[-> _]]]]]; try done.
  destruct (replay_raised_last _ _ _ _ _ _ Hk) as [_ ->].
  destruct o1; [|done]. by injection Hlast as ->.
Qed.

(** X4.  An exception other than [CloudError] raised by a call of the
    [try] body is raised by [run_example], after the group deletion has
    returned. *)
Theorem other_exception_in_body_propagates (i : nat) (c : call) (e : exn) :
  run !! i = Some (Ev c (Raised e)) → in_try_body c = true →
  e ≠ CloudError →
  last run = Some (Ev (result delete_group) Returned) →
  example.2 = Raise e.
Proof.
  intros Hi Hc He Hlast.
  destruct (run_entered i c _ Hi) as (o1 & o2 & Hrun & Hres & _);
    [by intros -> | by intros -> |].
  rewrite Hrun in Hi, Hlast. rewrite last_entered in Hlast. rewrite Hres.
  apply entered_lookup
    in Hi as [[-> _]|[[-> _]|[(k & _ & Hk)|[[-> _]|[-> _]]]]]; try done.
  destruct (replay_raised_last _ _ _ _ _ _ Hk) as [_ ->].
  destruct o1; [|done]. injection Hlast as ->. cbn. by destruct e.
Qed.

(** X5.  An exception raised by a call outside the [try] body (the
    metadata request, the group creation, the submission of the group
    deletion or the wait for it) is raised by [run_example], [CloudError]
    included: the [except] clause covers the body only. *)
Theorem exception_outside_body_propagates (i : nat) (c : call) (e : exn) :
  run !! i = Some (Ev c (Raised e)) → in_try_body c = false →
  example.2 = Raise e.
Proof.
  intros Hi Hc.
  destruct run_example_outcome
    as [(e' & Hrun & He)|[(e' & Hrun & He)|(o1 & o2 & Hrun & Hres & _)]];
    rewrite Hrun in Hi.
  - destruct i as [|i]; [|done]. injection Hi as _ <-. done.
  - destruct i as [|[|i]]; [done| |done]. injection Hi as _ <-. done.
  - rewrite Hres. apply entered_lookup
      in Hi as [[_ ?]|[[_ ?]|[(k & _ & Hk)|[[_ <-]|(_ & -> & <-)]]]];
      try done.
    apply replay_in_try_body in Hk. congruence.
Qed.

(** X6.  When the metadata request or the group creation raises,
    [run_example] raises the same exception and issues neither a call of
    the body nor a group deletion. *)
Theorem failure_before_try_issues_no_delete (e : exn) :
  Ev get_cloud (Raised e) ∈ run ∨ Ev create_group (Raised e) ∈ run →
  example.2 = Raise e
  ∧ occurrences is_group_delete run = 0
  ∧ Forall (λ ev, in_try_body (ev_call ev) = false) run.
Proof.
  intros Hfail.
  destruct run_example_outcome
    as [(e' & Hrun & He)|[(e' & Hrun & He)|(o1 & o2 & Hrun & _)]];
    rewrite Hrun in Hfail |- *.
  - destruct Hfail as [Hin|Hin]; apply list_elem_of_singleton in Hin;
      [|done]. injection Hin as <-. by repeat constructor.
  - destruct Hfail as [Hin|Hin];
      apply elem_of_cons in Hin as [Hin|Hin]; try done;
      apply list_elem_of_singleton in Hin; try done.
    injection Hin as <-. by repeat constructor.
  - exfalso. destruct Hfail as [Hin|Hin];
      apply list_elem_of_lookup_1 in Hin as [i Hi];
      apply entered_lookup
        in Hi as [[_ ?]|[[_ ?]|[(k & _ & Hk)|[[? _]|[? _]]]]]; try done;
      by apply replay_in_try_body in Hk.
Qed.
End Outcome.

(** ** The names *)

Lemma parse_format_int (z : Z) : parse_int (format_int z) = Some z.
Proof.
  unfold parse_int, format_int. rewrite NilZero.isi.
  - cbn. by rewrite DecimalZ.of_to.
  - destruct z as [|p|p]; cbn; try done.
    intros [= Hp]. by apply Unsigned.to_uint_nonnil in Hp.
  - destruct z as [|p|p]; cbn; try done.
    intros [= Hp]. by apply Unsigned.to_uint_nonnil in Hp.
Qed.

Lemma format_int_inj (z1 z2 : Z) : format_int z1 = format_int z2 → z1 = z2.
Proof.
  intros Heq. apply (f_equal parse_int) in Heq.
  rewrite !parse_format_int in Heq. by injection Heq.
Qed.

Lemma append_inj_r (base s1 s2 : string) :
  base +:+ s1 = base +:+ s2 → s1 = s2.
Proof. induction base as [|a base IH]; cbn; [done|]. intros [= ?]. auto. Qed.

(** X7.  Two loads of the script agree on one of the generated names
    exactly when they drew the same suffix: each name determines the
    suffix it was built from. *)
Theorem names_determine_postfix (postfix1 postfix2 : Z) :
  (GROUP_NAME postfix1 = GROUP_NAME postfix2
   ∨ VNET_NAME postfix1 = VNET_NAME postfix2
   ∨ SUBNET_NAME postfix1 = SUBNET_NAME postfix2
   ∨ OS_DISK_NAME postfix1 = OS_DISK_NAME postfix2
   ∨ IP_CONFIG_NAME postfix1 = IP_CONFIG_NAME postfix2
   ∨ NIC_NAME postfix1 = NIC_NAME postfix2
   ∨ VM_NAME postfix1 = VM_NAME postfix2)
  ↔ postfix1 = postfix2.
Proof.
  split; [|by intros ->; left].
  intros H; repeat destruct H as [H|H];
    by apply append_inj_r, format_int_inj in H.
Qed.

(** X8.  For every suffix the seven generated names are pairwise
    distinct. *)
Theorem names_are_distinct (postfix : Z) : NoDup (postfix_names postfix).
Proof.
  unfold postfix_names, GROUP_NAME, VNET_NAME, SUBNET_NAME, OS_DISK_NAME,
    IP_CONFIG_NAME, NIC_NAME, VM_NAME.
  repeat (apply NoDup_cons_2;
          [rewrite ?not_elem_of_cons; split_and?;
           try (cbn; discriminate); apply not_elem_of_nil |]).
  apply NoDup_nil_2.
Qed.

(** ** The resize step, completely *)


(** ** What [create_nic] returns *)

Section NicOutcome.
Context (postfix : Z) (svc : Service) (LOCATION : string).


(** X11.  When [create_nic] raises, the exception is the one raised by
    its last call, and every call before that one returned. *)
Theorem create_nic_raises_first_failure (w : World) (e : exn) :
  (create_nic postfix svc LOCATION w).2 = Raise e →
  ∃ before c,
    trace (create_nic postfix svc LOCATION w).1
    = trace w ++ before ++ [Ev c (Raised e)]
    ∧ Forall (λ ev, ev_outcome ev = Returned) before.
Proof.
  destruct w as [tr out]. cbn [trace length].
  unfold create_nic, begin_, result_, perform, print, bind, ret.
  cbn.
  destruct (svc (length tr) _) as [[]|e0]; cbn.
  2: { intros [= <-]. eexists [], _. split; [done | constructor]. }
  lengths.
  destruct (svc (S (length tr)) _) as [[]|e0]; cbn.
  2: { intros [= <-]. eexists [_], _. rewrite <-!app_assoc.
       split; [done|]. by repeat constructor. }
  lengths.
  destruct (svc (S (S (length tr))) _) as [[]|e0]; cbn.
  2: { intros [= <-]. eexists [_; _], _. rewrite <-!app_assoc.
       split; [done|]. by repeat constructor. }
  lengths.
  destruct (svc (S (S (S (length tr)))) _) as [subnet_info|e0]; cbn.
  2: { intros [= <-]. eexists [_; _; _], _. rewrite <-!app_assoc.
       split; [done|]. by repeat constructor. }
  lengths.
  destruct (svc (S (S (S (S (length tr))))) _) as [[]|e0]; cbn.
  2: { intros [= <-]. eexists [_; _; _; _], _. rewrite <-!app_assoc.
       split; [done|]. by repeat constructor. }
  lengths.
  destruct (svc (S (S (S (S (S (length tr)))))) _) as [nic'|e0]; cbn; [done|].
  intros [= <-]. eexists [_; _; _; _; _], _. rewrite <-!app_assoc.
  split; [done|]. by repeat constructor.
Qed.
End NicOutcome.

(** ** What flows between the calls *)

Lemma replay_length (svc : Service) (n : nat) (calls : list call) :
  length (replay svc n calls) ≤ length calls.
Proof.
  revert n. induction calls as [|c calls IH]; intros n; cbn; [done|].
  destruct (svc n c); cbn; [specialize (IH (S n))|]; lia.
Qed.

Lemma replay_succeeded (svc : Service) (n : nat) (calls : list call) :
  succeeded (replay svc n calls) →
  replay svc n calls = map (λ c, Ev c Returned) calls.
Proof.
  revert n. induction calls as [|c calls IH]; intros n; cbn; [done|].
  destruct (svc n c); cbn.
  - intros [_ Hrest]%Forall_cons_1. by rewrite IH.
  - by intros [? _]%Forall_cons_1.
Qed.

Section Flow.
Context (postfix : Z) (STORAGE_ACCOUNT_NAME PASSWORD : string).
Context (svc : Service) (config : Config.t).

Local Abbreviation GROUP := (GROUP_NAME postfix).
Local Abbreviation VM := (VM_NAME postfix).
Local Abbreviation LOCATION := (Config.location config).
Local Abbreviation get_cloud :=
  (get_cloud_from_metadata_endpoint (Config.resourceManagerUrl config)).
Local Abbreviation create_group :=
  (resource_groups_create_or_update GROUP LOCATION).
Local Abbreviation delete_group := (resource_groups_delete GROUP).
Local Abbreviation example :=
  (run_example postfix STORAGE_ACCOUNT_NAME PASSWORD svc config initial).
Local Abbreviation run := (trace example.1).
Local Abbreviation script :=
  (body_script postfix STORAGE_ACCOUNT_NAME PASSWORD svc LOCATION).

Local Opaque replay replay_result.

(** X12.  The attach update submits the machine that [get] returned with
    the descriptor of the created data disk appended, under the name of
    that machine; the detach update submits that same local object with
    the entries named ['mydatadisk1'] removed, not the machine the attach
    operation returned.  When the fetched machine had no entry of that
    name, the detach update submits its data-disk list unchanged. *)
Theorem machine_updates_submit_local_object (i : nat) (group name : string)
    (vm : VirtualMachine.t) (o : outcome) :
  run !! i = Some (Ev (begin (virtual_machines_create_or_update group name
                                (VMObject vm))) o) →
  ∃ fetched data_disk,
    svc 16 (virtual_machines_get GROUP VM) = Ok fetched
    ∧ svc 15 (result (disks_create_or_update GROUP DATA_DISK_NAME
                        (DiskCreate LOCATION 1 DiskCreateOption.empty)))
      = Ok data_disk
    ∧ ((i = 17 ∧ name = VirtualMachine.name fetched
        ∧ vm = attach_step fetched (Disk.id data_disk))
       ∨ (i = 19 ∧ name = VM
          ∧ vm = detach_step (attach_step fetched (Disk.id data_disk))
          ∧ (Forall (λ disk, DataDisk.name disk ≠ DATA_DISK_NAME)
                    (data_disks_of fetched) →
             data_disks_of vm = data_disks_of fetched))).
Proof.
  intros Hi.
  apply run_lookup_body in Hi as (k & -> & Hk & _ & Hbefore & _); [|done].
  assert (15 ≤ k) as Hle.
  { clear Hbefore. locate Hk k; lia. }
  destruct (Hbefore 13 (result (create_data_disk postfix LOCATION)))
    as [_ Hdisk]; [lia | reflexivity |].
  destruct (Hbefore 14 (virtual_machines_get GROUP VM))
    as [_ Hget]; [lia | reflexivity |].
  clear Hbefore Hle. cbn [Nat.add] in Hdisk, Hget.
  unfold create_data_disk in Hdisk.
  locate Hk k; injection Hk as <- <- <-;
    unfold attached_vm, the_vm, the_data_disk, create_data_disk;
    destruct (svc 16 _) as [fetched|?]; try discriminate Hget;
    destruct (svc 15 _) as [data_disk|?]; try discriminate Hdisk;
    exists fetched, data_disk; (split; [done|]); (split; [done|]).
  - left. split_and!; reflexivity.
  - right. split_and!; try reflexivity. apply attach_detach_roundtrip.
Qed.

(** X13.  The OS disk is looked up in the group of the run and under the
    name that the machine returned by the detach update reports for its
    OS disk. *)
Theorem os_disk_is_looked_up_by_reported_name (i : nat) (group name : string)
    (o : outcome) :
  run !! i = Some (Ev (disks_get group name) o) →
  ∃ submitted updated,
    run !! 20 = Some (Ev (result (virtual_machines_create_or_update GROUP VM
                                    (VMObject submitted))) Returned)
    ∧ svc 20 (result (virtual_machines_create_or_update GROUP VM
                        (VMObject submitted)))
      = Ok updated
    ∧ i = 23 ∧ group = GROUP
    ∧ name = OSDisk.name
               (StorageProfile.os_disk
                  (VirtualMachine.storage_profile updated)).
Proof.
  intros Hi.
  apply run_lookup_body in Hi as (k & -> & Hk & _ & Hbefore & _); [|done].
  locate Hk k. injection Hk as <- <-.
  destruct (Hbefore 18 (result (detach_disk postfix svc LOCATION)))
    as [Hrun Hret]; [lia | reflexivity |].
  clear Hbefore. cbn [Nat.add] in Hrun, Hret.
  unfold the_updated_vm. unfold detach_disk in Hrun, Hret |- *.
  destruct (svc 20 _) as [updated|?] eqn:Hsvc; [|discriminate Hret].
  by eexists _, updated.
Qed.

(** X14.  Two machine creations of a run carry the same parameters but
    for the image reference: same location, computer name ([VM_NAME]),
    credentials, size and network interface. *)
Theorem vm_creations_differ_only_in_image (i j : nat)
    (group1 name1 group2 name2 : string)
    (parameters1 parameters2 : VMParameters.t) (o1 o2 : outcome) :
  run !! i = Some (Ev (begin (virtual_machines_create_or_update group1 name1
                                (VMCreate parameters1))) o1) →
  run !! j = Some (Ev (begin (virtual_machines_create_or_update group2 name2
                                (VMCreate parameters2))) o2) →
  VMParameters.mk (VMParameters.location parameters1)
    (VMParameters.computer_name parameters1)
    (VMParameters.admin_username parameters1)
    (VMParameters.admin_password parameters1)
    (VMParameters.vm_size parameters1)
    (VMParameters.image_reference parameters2)
    (VMParameters.network_interfaces parameters1)
  = parameters2
  ∧ VMParameters.computer_name parameters1 = VM
  ∧ VMParameters.admin_password parameters1 = PASSWORD.
Proof.
  intros Hi Hj.
  apply run_lookup_body in Hi as (k & -> & Hk & _); [|done].
  apply run_lookup_body in Hj as (l & -> & Hl & _); [|done].
  locate Hk k; injection Hk as <- <- <-;
    locate Hl l; injection Hl as <- <- <-; done.
Qed.

Ltac grouped :=
  repeat (apply Forall_cons_2; [cbn; auto|]); apply Forall_nil_2.

(** X15.  Every call of a run that takes a resource group takes
    [GROUP_NAME]. *)
Theorem every_call_is_in_the_group :
  Forall (λ e, ∀ group, call_group (ev_call e) = Some group → group = GROUP)
         run.
Proof.
  assert (∀ tr, Forall (λ e, call_group (ev_call e) = None
                             ∨ call_group (ev_call e) = Some GROUP) tr →
                Forall (λ e, ∀ group, call_group (ev_call e) = Some group →
                                      group = GROUP) tr) as Hweaken.
  { intros tr Htr. eapply Forall_impl; [exact Htr|].
    intros e [Hnone|Hsome] group; [by rewrite Hnone | congruence]. }
  apply Hweaken.
  destruct (run_example_cases postfix STORAGE_ACCOUNT_NAME PASSWORD svc
              config) as [[e ->]|[[e ->]|(o & o' & ->)]].
  - grouped.
  - grouped.
  - repeat apply Forall_app_2.
    + grouped.
    + apply (replay_Forall svc
               (λ c, call_group c = None ∨ call_group c = Some GROUP)).
      unfold body_script. grouped.
    + destruct o; grouped.
Qed.

(** X16.  A run issues at most forty calls; when every call returns, the
    calls are the metadata request, the group creation, the thirty-six
    calls of the body in order, and the submission of and the wait for
    the group deletion. *)
Theorem run_has_at_most_forty_calls :
  length run ≤ 40
  ∧ (succeeded run →
     map ev_call run
     = [get_cloud; create_group] ++ script
       ++ [begin delete_group; result delete_group]).
Proof.
  destruct (run_example_cases postfix STORAGE_ACCOUNT_NAME PASSWORD svc
              config) as [[e ->]|[[e ->]|(o & o' & ->)]].
  - split; [cbn; lia|]. by intros [? _]%Forall_cons_1.
  - split; [cbn; lia|]. intros [_ [? _]%Forall_cons_1]%Forall_cons_1. done.
  - split.
    + rewrite !length_app. pose proof (replay_length svc 2 script) as Hlen.
      change (length script) with 36 in Hlen. destruct o; cbn; lia.
    + intros [_ [Hbody Hclean]%Forall_app]%Forall_app.
      rewrite (replay_succeeded _ _ _ Hbody), !map_app, map_map. cbn [ev_call].
      rewrite map_id. destruct o; [done|].
      by apply Forall_cons_1 in Hclean as [? _].
Qed.
End Flow.

(** ** The listings *)


(** ** Further sample runs *)

Lemma body_failure_goes_to_cleanup_witness :
  ∃ o,
    sample_run (interrupted 12 OtherException) !! 13
    = Some (Ev (begin (resource_groups_delete (GROUP_NAME 100))) o)
    ∧ ∀ j c' o',
        j < 12 →
        sample_run (interrupted 12 OtherException) !! j = Some (Ev c' o') →
        o' = Returned.
Proof.
  apply (body_failure_goes_to_cleanup 100 "wispydust1234" "secret"
           (interrupted 12 OtherException) sample_config 12
           sample_tag_update OtherException); reflexivity.
Defined.

Lemma normal_return_means_group_deleted_witness :
  last (sample_run obliging)
  = Some (Ev (result (resource_groups_delete (GROUP_NAME 100))) Returned)
  ∧ last (stdout (sample_example obliging).1)
    = Some ("Deleted: " +:+ GROUP_NAME 100).
Proof.
  apply (normal_return_means_group_deleted 100 "wispydust1234" "secret"
           obliging sample_config).
  reflexivity.
Defined.

Lemma cloud_error_in_body_is_caught_witness :
  (sample_example (interrupted 12 CloudError)).2 = Ok tt.
Proof.
  apply (cloud_error_in_body_is_caught 100 "wispydust1234" "secret"
           (interrupted 12 CloudError) sample_config 12 sample_tag_update);
    reflexivity.
Defined.

Lemma other_exception_in_body_propagates_witness :
  (sample_example (interrupted 12 OtherException)).2 = Raise OtherException.
Proof.
  apply (other_exception_in_body_propagates 100 "wispydust1234" "secret"
           (interrupted 12 OtherException) sample_config 12
           sample_tag_update OtherException);
    [reflexivity | reflexivity | discriminate | reflexivity].
Defined.

Lemma exception_outside_body_propagates_witness :
  (sample_example (interrupted 39 CloudError)).2 = Raise CloudError.
Proof.
  apply (exception_outside_body_propagates 100 "wispydust1234" "secret"
           (interrupted 39 CloudError) sample_config 39
           (result (resource_groups_delete (GROUP_NAME 100))) CloudError);
    reflexivity.
Defined.

Lemma failure_before_try_issues_no_delete_witness :
  (sample_example (interrupted 1 CloudError)).2 = Raise CloudError
  ∧ occurrences is_group_delete (sample_run (interrupted 1 CloudError)) = 0
  ∧ Forall (λ ev, in_try_body (ev_call ev) = false)
           (sample_run (interrupted 1 CloudError)).
Proof.
  apply (failure_before_try_issues_no_delete 100 "wispydust1234" "secret"
           (interrupted 1 CloudError) sample_config CloudError).
  right. apply (list_elem_of_lookup_2 _ 1). reflexivity.
Defined.


Lemma create_nic_raises_first_failure_witness :
  ∃ before c,
    trace (create_nic 100 (interrupted 2 CloudError) "local" initial).1
    = trace initial ++ before ++ [Ev c (Raised CloudError)]
    ∧ Forall (λ ev, ev_outcome ev = Returned) before.
Proof.
  apply (create_nic_raises_first_failure 100 (interrupted 2 CloudError)
           "local" initial CloudError).
  reflexivity.
Defined.

Lemma machine_updates_submit_local_object_witness :
  ∃ fetched data_disk,
    obliging 16 (virtual_machines_get (GROUP_NAME 100) (VM_NAME 100))
    = Ok fetched
    ∧ obliging 15
        (result (disks_create_or_update (GROUP_NAME 100) DATA_DISK_NAME
                   (DiskCreate "local" 1 DiskCreateOption.empty)))
      = Ok data_disk
    ∧ ((17 = 17 ∧ "VmName100" = VirtualMachine.name fetched
        ∧ attach_step sample_vm "disk-id"
          = attach_step fetched (Disk.id data_disk))
       ∨ (17 = 19 ∧ "VmName100" = VM_NAME 100
          ∧ attach_step sample_vm "disk-id"
            = detach_step (attach_step fetched (Disk.id data_disk))
          ∧ (Forall (λ disk, DataDisk.name disk ≠ DATA_DISK_NAME)
                    (data_disks_of fetched) →
             data_disks_of (attach_step sample_vm "disk-id")
             = data_disks_of fetched))).
Proof.
  apply (machine_updates_submit_local_object 100 "wispydust1234" "secret"
           obliging sample_config 17 (GROUP_NAME 100) "VmName100"
           (attach_step sample_vm "disk-id") Returned).
  reflexivity.
Defined.

Lemma os_disk_is_looked_up_by_reported_name_witness :
  ∃ submitted updated,
    sample_run obliging !! 20
    = Some (Ev (result (virtual_machines_create_or_update
                          (GROUP_NAME 100) (VM_NAME 100)
                          (VMObject submitted))) Returned)
    ∧ obliging 20 (result (virtual_machines_create_or_update
                             (GROUP_NAME 100) (VM_NAME 100)
                             (VMObject submitted)))
      = Ok updated
    ∧ 23 = 23 ∧ GROUP_NAME 100 = GROUP_NAME 100
    ∧ "VmName100_OsDisk"
      = OSDisk.name
          (StorageProfile.os_disk (VirtualMachine.storage_profile updated)).
Proof.
  apply (os_disk_is_looked_up_by_reported_name 100 "wispydust1234" "secret"
           obliging sample_config 23 (GROUP_NAME 100) "VmName100_OsDisk"
           Returned).
  reflexivity.
Defined.

Lemma vm_creations_differ_only_in_image_witness :
  VMParameters.mk "local" (VM_NAME 100) USERNAME "secret" "Standard_DS1_v2"
    (VMParameters.image_reference
       (create_vm_parameters 100 "secret" "nic-id" (VM_REFERENCE windows)
          "local"))
    ["nic-id"]
  = create_vm_parameters 100 "secret" "nic-id" (VM_REFERENCE windows) "local"
  ∧ VMParameters.computer_name
      (create_vm_parameters 100 "secret" "nic-id" (VM_REFERENCE linux)
         "local")
    = VM_NAME 100
  ∧ VMParameters.admin_password
      (create_vm_parameters 100 "secret" "nic-id" (VM_REFERENCE linux)
         "local")
    = "secret".
Proof.
  apply (vm_creations_differ_only_in_image 100 "wispydust1234" "secret"
           obliging sample_config 10 36 (GROUP_NAME 100) (VM_NAME 100)
           (GROUP_NAME 100) (VM_NAME 100)
           (create_vm_parameters 100 "secret" "nic-id" (VM_REFERENCE linux)
              "local")
           (create_vm_parameters 100 "secret" "nic-id" (VM_REFERENCE windows)
              "local")
           Returned Returned); reflexivity.
Defined.
